(** * simple_control.py: a P4Runtime controller

    Shallow embedding of [src/proto/simple_control.py] and the properties
    of its arbitration, pipeline installation, identifier lookup and LPM
    rule insertion.

    Conventions of the embedding:
    - Python [int] is [Z]; a protobuf integer field checks its range when
      it is assigned ([set_uint64], [set_int32]).
    - Python [bytes] is [list byte].
    - Python [str] is [string]: the characters are the code points below
      256.  Text with code points from 256 on (for instance the decimal
      digits of other scripts, which [int] also accepts) is outside the
      embedding.
    - An exception is a value of [Exn]; pure fallible code returns a
      [Result], statements run in the monad [Stmt], which threads the
      trace of what the process has done so far and carries the three
      ways a Python statement ends: fall through, [return], raise. *)

From Stdlib Require Import ZArith List Bool Lia.
From Stdlib.Strings Require Import String Ascii Byte.
From Stdlib Require Import DecimalString.
Import ListNotations.
Local Open Scope string_scope.
Local Open Scope list_scope.
Local Open Scope Z_scope.

Set Implicit Arguments.

(** ** Exceptions and results *)

Inductive Exn : Type :=
| ValueError      (* int(), bytes(), protobuf range check *)
| OverflowError   (* int.to_bytes *)
| RpcError        (* grpc.RpcError *)
| StopIteration   (* next() on a stream that ended *)
| OSError         (* open() *)
| ParseError.     (* text_format.Parse *)

Inductive Result (A : Type) : Type :=
| Ok (a : A)
| Err (e : Exn).
Arguments Ok {A} a.
Arguments Err {A} e.

Definition rbind {A B} (r : Result A) (k : A -> Result B) : Result B :=
  match r with
  | Ok a => k a
  | Err e => Err e
  end.

Notation "x <-? r ;; k" := (rbind r (fun x => k))
  (at level 61, r at next level, right associativity).

(** ** Python built-ins used by the controller *)

Module Py.

(** [s.split(".")] with a one-character separator: the pieces between
    the separators, empty pieces kept; the empty string gives [[""]]. *)
Fixpoint split (sep : ascii) (s : string) : list string :=
  match s with
  | EmptyString => [EmptyString]
  | String c rest =>
      if Ascii.eqb c sep then EmptyString :: split sep rest
      else match split sep rest with
           | piece :: pieces => String c piece :: pieces
           | [] => [String c EmptyString]
           end
  end.

(** What [int(str)] takes for white space once the text has been brought
    to ASCII: tab, line feed, vertical tab, form feed, carriage return and
    space, and of the code points from 127 on those Unicode calls white
    space, which below 256 are NEL (0x85) and the no-break space (0xA0). *)
Definition is_space (c : ascii) : bool :=
  let n := N_of_ascii c in
  ((9 <=? n) && (n <=? 13) || (n =? 32) || (n =? 133) || (n =? 160))%N.

Definition digit_value (c : ascii) : option Z :=
  let n := N_of_ascii c in
  if ((48 <=? n) && (n <=? 57))%N then Some (Z.of_N n - 48) else None.

Fixpoint skip_spaces (s : string) : string :=
  match s with
  | String c rest => if is_space c then skip_spaces rest else s
  | EmptyString => s
  end.

(** The scan of the digits of a base-10 literal.  [prev_us] says that the
    character before was an underscore; [acc] is the value and [ndigits]
    the number of digits read so far.  An underscore after an underscore,
    or an underscore as the last character of the run, is an error
    ([None]); otherwise the scan stops at the first character that is
    neither a digit nor an underscore and returns the rest. *)
Fixpoint scan_digits (prev_us : bool) (acc : Z) (ndigits : N) (s : string)
  : option (Z * N * string) :=
  match s with
  | EmptyString => if prev_us then None else Some (acc, ndigits, s)
  | String c rest =>
      if Ascii.eqb c "_"%char then
        if prev_us then None else scan_digits true acc ndigits rest
      else
        match digit_value c with
        | Some d => scan_digits false (10 * acc + d) (N.succ ndigits) rest
        | None => if prev_us then None else Some (acc, ndigits, s)
        end
  end.

(** The default of [sys.get_int_max_str_digits()]. *)
Definition int_max_str_digits : N := 4300.

(** [int(s)] for a string [s], base 10: optional white space, an optional
    sign, digits with single underscores between them, optional white
    space.  Anything else is a [ValueError], and so is a literal of more
    than [int_max_str_digits] digits. *)
Definition int (s : string) : Result Z :=
  let s1 := skip_spaces s in
  let '(sign, s2) :=
    match s1 with
    | String "+"%char r => (1, r)
    | String "-"%char r => (-1, r)
    | _ => (1, s1)
    end in
  match s2 with
  | String "_"%char _ => Err ValueError
  | _ =>
      match scan_digits false 0 0 s2 with
      | None => Err ValueError
      | Some (v, ndigits, rest) =>
          if (int_max_str_digits <? ndigits)%N then Err ValueError
          else if (ndigits =? 0)%N then Err ValueError
          else match skip_spaces rest with
               | EmptyString => Ok (sign * v)
               | String _ _ => Err ValueError
               end
      end
  end.

Definition byte_of_Z (n : Z) : option byte :=
  if (0 <=? n) && (n <? 256) then Byte.of_N (Z.to_N n) else None.

Definition Z_of_byte (b : byte) : Z := Z.of_N (Byte.to_N b).

(** [bytes(map(f, xs))]: the items are produced and checked one after the
    other; an item outside [range(0, 256)] is a [ValueError]. *)
Fixpoint bytes_map {A} (f : A -> Result Z) (xs : list A) : Result (list byte) :=
  match xs with
  | [] => Ok []
  | x :: rest =>
      n <-? f x ;;
      match byte_of_Z n with
      | None => Err ValueError
      | Some b => bs <-? bytes_map f rest ;; Ok (b :: bs)
      end
  end.

(** The [length] low bytes of [n], least significant first. *)
Fixpoint low_bytes (length : nat) (n : Z) : list byte :=
  match length with
  | O => []
  | S k =>
      match byte_of_Z (n mod 256) with
      | Some b => b :: low_bytes k (n / 256)
      | None => []
      end
  end.

(** [n.to_bytes(length, "big")], unsigned: a negative [n], or one that
    does not fit in [length] bytes, is an [OverflowError]. *)
Definition to_bytes_big (n : Z) (length : nat) : Result (list byte) :=
  if n <? 0 then Err OverflowError
  else if 256 ^ Z.of_nat length <=? n then Err OverflowError
  else Ok (rev (low_bytes length n)).

(** The unsigned big-endian value of a byte string. *)
Definition from_bytes_big (bs : list byte) : Z :=
  fold_left (fun acc b => 256 * acc + Z_of_byte b) bs 0.

End Py.

(** Range checks of protobuf integer fields on assignment. *)
Definition set_uint64 (v : Z) : Result Z :=
  if (0 <=? v) && (v <? 2 ^ 64) then Ok v else Err ValueError.

Definition set_int32 (v : Z) : Result Z :=
  if (- 2 ^ 31 <=? v) && (v <? 2 ^ 31) then Ok v else Err ValueError.

(** ** Helpers *)

(** [ipv4_to_bytes(ip)]: [bytes(map(int, ip.split(".")))]. *)
Definition ipv4_to_bytes (ip : string) : Result (list byte) :=
  Py.bytes_map Py.int (Py.split "."%char ip).

(** ** The program description, [p4.config.v1.P4Info]

    Only the fields the controller reads.  The identifiers are [uint32]
    fields of a parsed message, so they are in range by construction. *)

Record Preamble : Type := { preamble_id : Z; preamble_name : string }.
Record MatchField : Type := { mf_id : Z; mf_name : string }.
Record Table : Type := { t_preamble : Preamble; match_fields : list MatchField }.
Record Param : Type := { p_id : Z; p_name : string }.
Record Action : Type := { a_preamble : Preamble; params : list Param }.
Record P4Info : Type := { tables : list Table; actions : list Action }.

(** ** The messages of [p4.v1], as far as the controller fills them *)

Record Uint128 : Type := { high : Z; low : Z }.

Record MasterArbitrationUpdate : Type :=
  { arb_device_id : Z; arb_election_id : Uint128 }.

Record StreamMessageRequest : Type :=
  { arbitration : MasterArbitrationUpdate }.

(** [SetForwardingPipelineConfigRequest.Action]; its value 0 is called
    UNSPECIFIED, as is that of [Update.Type] below. *)
Inductive PipelineAction : Type :=
| ACTION_UNSPECIFIED
| VERIFY
| VERIFY_AND_SAVE
| VERIFY_AND_COMMIT
| COMMIT
| RECONCILE_AND_COMMIT.

Record ForwardingPipelineConfig : Type :=
  { config_p4info : P4Info; p4_device_config : list byte }.

Record SetForwardingPipelineConfigRequest : Type :=
  { set_device_id : Z;
    set_action : PipelineAction;
    set_election_id : Uint128;
    config : ForwardingPipelineConfig }.

Record LpmMatch : Type := { lpm_value : list byte; lpm_prefix_len : Z }.
Record FieldMatch : Type := { field_id : Z; lpm : LpmMatch }.
Record ActionParam : Type := { param_id : Z; param_value : list byte }.
Record ActionCall : Type := { action_id : Z; action_params : list ActionParam }.

Record TableEntry : Type :=
  { table_id : Z; te_match : list FieldMatch; te_action : ActionCall }.

Inductive UpdateType : Type := UNSPECIFIED | INSERT | MODIFY | DELETE.

Record Update : Type := { upd_type : UpdateType; upd_table_entry : TableEntry }.

Record WriteRequest : Type :=
  { write_device_id : Z; write_election_id : Uint128; updates : list Update }.

(** The first message read from the stream: [WhichOneof("update")] is
    ["arbitration"], with its [status.code], or it is something else. *)
Inductive StreamMessageResponse : Type :=
| Resp_arbitration (status_code : Z)
| Resp_other.

(** How [next(stream)] ends. *)
Inductive StreamOutcome : Type :=
| Stream_response (r : StreamMessageResponse)
| Stream_RpcError
| Stream_StopIteration.

(** ** Command line, device and file system *)

Record Args : Type :=
  { p4info : string;
    json : string;
    addr : string;
    device_id : Z;
    election_id : Z }.

(** Everything the run depends on and the program does not decide: the
    parsed arguments, what the two files hold (or the exception that
    reading them raises), and the answers of the device.  The answer to a
    write may depend on the request and on how many writes came before. *)
Record Env : Type :=
  { args : Args;
    file_p4info : string -> Result P4Info;
    file_json : string -> Result (list byte);
    stream_outcome : StreamOutcome;
    pipeline_reply : SetForwardingPipelineConfigRequest -> bool;
    write_reply : nat -> WriteRequest -> bool }.

(** ** Traces *)

(** One constructor for each [print] of [main]. *)
Inductive Output : Type :=
| Error_stream_failed
| Error_unexpected_response
| Error_not_primary (status_code : Z)
| Info_became_primary (election_id : Z)
| Error_load_p4info
| Error_load_json
| Info_installing
| Info_installed
| Error_set_pipeline_failed
| Error_could_not_find_ids (table_id match_field_id action_id param_id : option Z)
| Info_inserted (dst_ip : string) (prefix_len out_port : Z)
| Error_write_failed
| Info_all_inserted.

(** What the main thread does that can be seen from outside, in order.
    An RPC is recorded with its request and with whether it succeeded. *)
Inductive Event : Type :=
| Stream_opened
| Stream_next (o : StreamOutcome)
| Rpc_SetForwardingPipelineConfig (req : SetForwardingPipelineConfigRequest) (ok : bool)
| Rpc_Write (req : WriteRequest) (ok : bool)
| Print (o : Output).

Definition Trace : Type := list Event.

(** ** Statements *)

Inductive Control (A : Type) : Type :=
| Next (a : A)      (* falls through to the next statement *)
| Return            (* [return] *)
| Raised (e : Exn). (* an exception on its way out *)
Arguments Next {A} a.
Arguments Return {A}.
Arguments Raised {A} e.

Definition Stmt (A : Type) : Type := Trace -> Control A * Trace.

Definition ret {A} (a : A) : Stmt A := fun tr => (Next a, tr).

Definition bind {A B} (m : Stmt A) (k : A -> Stmt B) : Stmt B :=
  fun tr =>
    match m tr with
    | (Next a, tr') => k a tr'
    | (Return, tr') => (Return, tr')
    | (Raised e, tr') => (Raised e, tr')
    end.

Notation "x <- m ;; k" := (bind m (fun x => k))
  (at level 61, m at next level, right associativity).
Notation "m ;; k" := (bind m (fun _ => k))
  (at level 61, right associativity).

Definition emit (ev : Event) : Stmt unit := fun tr => (Next tt, tr ++ [ev]).
Definition print (o : Output) : Stmt unit := emit (Print o).
Definition return_ {A} : Stmt A := fun tr => (Return, tr).
Definition raise {A} (e : Exn) : Stmt A := fun tr => (Raised e, tr).

Definition lift {A} (r : Result A) : Stmt A :=
  match r with
  | Ok a => ret a
  | Err e => raise e
  end.

(** [try: body except <catches> : handler] *)
Definition try_except {A} (body : Stmt A) (catches : Exn -> bool) (handler : Stmt A)
  : Stmt A :=
  fun tr =>
    match body tr with
    | (Raised e, tr') => if catches e then handler tr' else (Raised e, tr')
    | r => r
    end.

Definition is_RpcError (e : Exn) : bool :=
  match e with RpcError => true | _ => false end.

Definition any_Exception (e : Exn) : bool := true.

(** ** The RPCs of the stub *)

(** [next(stream)], the one blocking read of the stream. *)
Definition next_stream (env : Env) : Stmt StreamMessageResponse :=
  emit (Stream_next (stream_outcome env)) ;;
  match stream_outcome env with
  | Stream_response r => ret r
  | Stream_RpcError => raise RpcError
  | Stream_StopIteration => raise StopIteration
  end.

(** [stub.SetForwardingPipelineConfig(set_req)] *)
Definition stub_SetForwardingPipelineConfig (env : Env)
    (set_req : SetForwardingPipelineConfigRequest) : Stmt unit :=
  let ok := pipeline_reply env set_req in
  emit (Rpc_SetForwardingPipelineConfig set_req ok) ;;
  if ok then ret tt else raise RpcError.

Definition is_write (ev : Event) : bool :=
  match ev with Rpc_Write _ _ => true | _ => false end.

(** [stub.Write(write_req)] *)
Definition stub_Write (env : Env) (write_req : WriteRequest) : Stmt unit :=
  fun tr =>
    let ok := write_reply env (List.length (filter is_write tr)) write_req in
    (emit (Rpc_Write write_req ok) ;;
     if ok then ret tt else raise RpcError) tr.

(** [load_p4info(path)] and [load_json(path)] read the file system. *)
Definition load_p4info (env : Env) (path : string) : Stmt P4Info :=
  lift (file_p4info env path).

Definition load_json (env : Env) (path : string) : Stmt (list byte) :=
  lift (file_json env path).

(** ** [stream_requests], the generator behind the stream

    The message that both the first [yield] and every round of the
    [while True] loop build: device id, election id with high word 0.
    Assigning an id that is no [uint64] raises and ends the generator. *)
Definition arbitration_request (a : Args) : Result StreamMessageRequest :=
  dev <-? set_uint64 (device_id a) ;;
  lo <-? set_uint64 (election_id a) ;;
  Ok {| arbitration :=
          {| arb_device_id := dev;
             arb_election_id := {| high := 0; low := lo |} |} |}.

(** [n] rounds of the keep-alive loop ([time.sleep(2)] between them). *)
Fixpoint keep_alive (a : Args) (n : nat) : list StreamMessageRequest :=
  match n with
  | O => []
  | S k =>
      match arbitration_request a with
      | Ok keep => keep :: keep_alive a k
      | Err _ => []
      end
  end.

(** The first [n] messages the generator yields. *)
Definition stream_requests (a : Args) (n : nat) : list StreamMessageRequest :=
  match n with
  | O => []
  | S k =>
      match arbitration_request a with
      | Ok req => req :: keep_alive a k
      | Err _ => []
      end
  end.

(** ** Lookup of the table and action identifiers *)

Definition table_name : string := "my_ingress.ipv4_match".
Definition action_name : string := "my_ingress.to_port_action".
Definition match_field : string := "hdr.ipv4.dst_addr".

(** [for mf in t.match_fields: if mf.name == match_field: match_field_id = mf.id]
    The loop has no [break]: it runs to the end of the list and every
    field of that name assigns again. *)
Fixpoint scan_match_fields (mfs : list MatchField) (match_field_id : option Z)
  : option Z :=
  match mfs with
  | [] => match_field_id
  | mf :: rest =>
      if String.eqb (mf_name mf) match_field
      then scan_match_fields rest (Some (mf_id mf))
      else scan_match_fields rest match_field_id
  end.

(** [for t in p4info.tables: if t.preamble.name == table_name: ...; break]
    gives [(table_id, match_field_id)]. *)
Fixpoint scan_tables (ts : list Table) : option Z * option Z :=
  match ts with
  | [] => (None, None)
  | t :: rest =>
      if String.eqb (preamble_name (t_preamble t)) table_name
      then (Some (preamble_id (t_preamble t)),
            scan_match_fields (match_fields t) None)
      else scan_tables rest
  end.

(** [for p in a.params: if p.name == "port": param_id = p.id; break] *)
Fixpoint scan_params (ps : list Param) : option Z :=
  match ps with
  | [] => None
  | p :: rest =>
      if String.eqb (p_name p) "port" then Some (p_id p) else scan_params rest
  end.

(** The body of the [if a.preamble.name == action_name:] for action [a]:
    the scan for ["port"], then
    [if param_id is None and a.params: param_id = a.params[0].id]. *)
Definition action_param_id (a : Action) : option Z :=
  match scan_params (params a) with
  | Some i => Some i
  | None =>
      match params a with
      | p0 :: _ => Some (p_id p0)
      | [] => None
      end
  end.

(** [for a in p4info.actions: if a.preamble.name == action_name: ...; break]
    gives [(action_id, param_id)]. *)
Fixpoint scan_actions (acts : list Action) : option Z * option Z :=
  match acts with
  | [] => (None, None)
  | a :: rest =>
      if String.eqb (preamble_name (a_preamble a)) action_name
      then (Some (preamble_id (a_preamble a)), action_param_id a)
      else scan_actions rest
  end.

(** Truth value of [None] or an [int]. *)
Definition truthy (v : option Z) : bool :=
  match v with
  | None => false
  | Some n => negb (n =? 0)
  end.

(** The four variables of [main] after the two loops. *)
Record Ids : Type :=
  { ids_table : option Z;
    ids_match_field : option Z;
    ids_action : option Z;
    ids_param : option Z }.

Definition lookup_ids (p : P4Info) : Ids :=
  let '(t, mf) := scan_tables (tables p) in
  let '(a, pa) := scan_actions (actions p) in
  {| ids_table := t; ids_match_field := mf; ids_action := a; ids_param := pa |}.

(** [all([table_id, match_field_id, action_id, param_id])] *)
Definition all_ids (i : Ids) : bool :=
  forallb truthy [ids_table i; ids_match_field i; ids_action i; ids_param i].

(** The integer in a variable that passed the test above. *)
Definition id_value (v : option Z) : Z :=
  match v with Some n => n | None => 0 end.

(** ** [insert_lpm], the helper that inserts one LPM rule

    A closure of [main]: it reads [args] and the four identifiers, which
    are integers by the time it is defined. *)
Definition insert_lpm (env : Env) (table_id match_field_id action_id param_id : Z)
    (dst_ip : string) (prefix_len out_port : Z) : Stmt unit :=
  value <- lift (ipv4_to_bytes dst_ip) ;;
  plen <- lift (set_int32 prefix_len) ;;
  let fm :=
    {| field_id := match_field_id;
       lpm := {| lpm_value := value; lpm_prefix_len := plen |} |} in
  port <- lift (Py.to_bytes_big out_port 2) ;;
  let p := {| param_id := param_id; param_value := port |} in
  let te :=
    {| table_id := table_id;
       te_match := [fm];
       te_action := {| action_id := action_id; action_params := [p] |} |} in
  let upd := {| upd_type := INSERT; upd_table_entry := te |} in
  dev <- lift (set_uint64 (device_id (args env))) ;;
  lo <- lift (set_uint64 (election_id (args env))) ;;
  let write_req :=
    {| write_device_id := dev;
       write_election_id := {| high := 0; low := lo |};
       updates := [] ++ [upd] |} in
  try_except
    (stub_Write env write_req ;;
     print (Info_inserted dst_ip prefix_len out_port))
    is_RpcError
    (print Error_write_failed).

(** ** [main]

    The result [Next tt] stands for reaching the idle loop at the end
    ([while True: time.sleep(1)]), where the process stays until it is
    interrupted. *)
Definition main (env : Env) : Stmt unit :=
  let a := args env in
  (* Arbitration *)
  emit Stream_opened ;;
  arb_resp <- try_except (next_stream env) is_RpcError
                (print Error_stream_failed ;; return_) ;;
  code <- match arb_resp with
          | Resp_other => print Error_unexpected_response ;; return_
          | Resp_arbitration code => ret code
          end ;;
  (if negb (code =? 0) then print (Error_not_primary code) ;; return_
   else ret tt) ;;
  print (Info_became_primary (election_id a)) ;;
  (* Load P4Info and BMv2 JSON *)
  p4 <- try_except (load_p4info env (p4info a)) any_Exception
          (print Error_load_p4info ;; return_) ;;
  device_config <- try_except (load_json env (json a)) any_Exception
                     (print Error_load_json ;; return_) ;;
  (* Set Forwarding Pipeline *)
  dev <- lift (set_uint64 (device_id a)) ;;
  lo <- lift (set_uint64 (election_id a)) ;;
  let set_req :=
    {| set_device_id := dev;
       set_action := VERIFY_AND_COMMIT;
       set_election_id := {| high := 0; low := lo |};
       config := {| config_p4info := p4; p4_device_config := device_config |} |} in
  try_except
    (print Info_installing ;;
     stub_SetForwardingPipelineConfig env set_req ;;
     print Info_installed)
    is_RpcError
    (print Error_set_pipeline_failed ;; return_) ;;
  (* Lookup table/action IDs from P4Info *)
  let i := lookup_ids p4 in
  (if negb (all_ids i)
   then print (Error_could_not_find_ids (ids_table i) (ids_match_field i)
                 (ids_action i) (ids_param i)) ;; return_
   else ret tt) ;;
  (* Insert example entries *)
  let insert := insert_lpm env (id_value (ids_table i)) (id_value (ids_match_field i))
                  (id_value (ids_action i)) (id_value (ids_param i)) in
  insert "10.0.0.1" 32 0 ;;
  insert "10.0.0.2" 32 1 ;;
  print Info_all_inserted.

(** The trace of a whole run. *)
Definition run (env : Env) : Control unit * Trace := main env [].

Definition writes (tr : Trace) : list WriteRequest :=
  flat_map (fun ev => match ev with Rpc_Write req _ => [req] | _ => [] end) tr.

(** ** What a provisioned run looks like

    The requests the program builds, written out, so that the theorems
    about the trace can name them. *)

Definition election_identity (env : Env) : Uint128 :=
  {| high := 0; low := election_id (args env) |}.

Definition pipeline_request (env : Env) (p : P4Info) (device_config : list byte)
  : SetForwardingPipelineConfigRequest :=
  {| set_device_id := device_id (args env);
     set_action := VERIFY_AND_COMMIT;
     set_election_id := election_identity env;
     config := {| config_p4info := p; p4_device_config := device_config |} |}.

Definition lpm_entry (t m a p : Z) (value : list byte) (prefix_len : Z)
    (port : list byte) : TableEntry :=
  {| table_id := t;
     te_match :=
       [ {| field_id := m;
            lpm := {| lpm_value := value; lpm_prefix_len := prefix_len |} |} ];
     te_action :=
       {| action_id := a;
          action_params := [ {| param_id := p; param_value := port |} ] |} |}.

Definition lpm_write_request (env : Env) (te : TableEntry) : WriteRequest :=
  {| write_device_id := device_id (args env);
     write_election_id := election_identity env;
     updates := [ {| upd_type := INSERT; upd_table_entry := te |} ] |}.

Definition uint64 (v : Z) : Prop := 0 <= v < 2 ^ 64.

(** The device answers the arbitration with status code 0, both files
    load, the two identifiers of the command line are [uint64], and the
    device accepts the pipeline. *)
Record provisioned (env : Env) (p : P4Info) (device_config : list byte) : Prop :=
  { prov_primary : stream_outcome env = Stream_response (Resp_arbitration 0);
    prov_p4info : file_p4info env (p4info (args env)) = Ok p;
    prov_json : file_json env (json (args env)) = Ok device_config;
    prov_device_id : uint64 (device_id (args env));
    prov_election_id : uint64 (election_id (args env));
    prov_pipeline : pipeline_reply env (pipeline_request env p device_config) = true }.

Definition provision_trace (env : Env) (p : P4Info) (device_config : list byte)
  : Trace :=
  [ Stream_opened;
    Stream_next (Stream_response (Resp_arbitration 0));
    Print (Info_became_primary (election_id (args env)));
    Print Info_installing;
    Rpc_SetForwardingPipelineConfig (pipeline_request env p device_config) true;
    Print Info_installed ].

(** What [insert_lpm] adds to the trace once the request is built. *)
Definition write_events (env : Env) (n : nat) (req : WriteRequest)
    (dst_ip : string) (prefix_len out_port : Z) : Trace :=
  if write_reply env n req
  then [Rpc_Write req true; Print (Info_inserted dst_ip prefix_len out_port)]
  else [Rpc_Write req false; Print Error_write_failed].

(** Everything the process sends to the device: the messages of the
    stream and the requests of the two unary RPCs. *)
Inductive Message : Type :=
| Msg_stream (m : StreamMessageRequest)
| Msg_pipeline (r : SetForwardingPipelineConfigRequest)
| Msg_write (r : WriteRequest).

Definition message_election_id (m : Message) : Uint128 :=
  match m with
  | Msg_stream m => arb_election_id (arbitration m)
  | Msg_pipeline r => set_election_id r
  | Msg_write r => write_election_id r
  end.

Definition requests (tr : Trace) : list Message :=
  flat_map (fun ev =>
              match ev with
              | Rpc_SetForwardingPipelineConfig r _ => [Msg_pipeline r]
              | Rpc_Write r _ => [Msg_write r]
              | _ => []
              end) tr.

(** The messages of a session in which the stream has taken [n] messages
    from the generator. *)
Definition sent_messages (env : Env) (n : nat) : list Message :=
  map Msg_stream (stream_requests (args env) n) ++ requests (snd (run env)).

(** The first table, and the first action, of the names [main] looks for. *)
Definition is_table (t : Table) : bool :=
  String.eqb (preamble_name (t_preamble t)) table_name.

Definition is_action (a : Action) : bool :=
  String.eqb (preamble_name (a_preamble a)) action_name.

Definition is_match_field (mf : MatchField) : bool :=
  String.eqb (mf_name mf) match_field.

Definition is_port (pa : Param) : bool := String.eqb (p_name pa) "port".

Definition named_table (p : P4Info) (t : Table) : Prop :=
  find is_table (tables p) = Some t.

Definition named_action (p : P4Info) (a : Action) : Prop :=
  find is_action (actions p) = Some a.

(** The textual form of addresses: the decimal numeral of an octet, and
    four of them joined by dots. *)
Definition decimal (n : Z) : string :=
  NilZero.string_of_uint (N.to_uint (Z.to_N n)).

Definition dotted_quad (a b c d : Z) : string :=
  decimal a ++ "." ++ decimal b ++ "." ++ decimal c ++ "." ++ decimal d.

Fixpoint no_dot (s : string) : bool :=
  match s with
  | EmptyString => true
  | String c rest => negb (Ascii.eqb c "."%char) && no_dot rest
  end.

Definition octet (n : Z) : Prop := 0 <= n < 256.

(** ** A sample program description and device *)

Module Sample.

Definition program : P4Info :=
  {| tables :=
       [ {| t_preamble := {| preamble_id := 33574068; preamble_name := table_name |};
            match_fields := [ {| mf_id := 1; mf_name := match_field |} ] |} ];
     actions :=
       [ {| a_preamble := {| preamble_id := 16805608; preamble_name := action_name |};
            params := [ {| p_id := 1; p_name := "port" |} ] |} ] |}.

Definition arguments : Args :=
  {| p4info := "build/test.p4info.txt";
     json := "build/test.json";
     addr := "127.0.0.1:50051";
     device_id := 0;
     election_id := 10 |}.

(** A device that answers the arbitration with [outcome], the pipeline
    installation with [pipeline_ok] and the [n]-th write with [write_ok n],
    next to files that hold the description [p] and an empty image. *)
Definition env (p : P4Info) (outcome : StreamOutcome) (pipeline_ok : bool)
    (write_ok : nat -> bool) : Env :=
  {| args := arguments;
     file_p4info := fun _ => Ok p;
     file_json := fun _ => Ok [];
     stream_outcome := outcome;
     pipeline_reply := fun _ => pipeline_ok;
     write_reply := fun n _ => write_ok n |}.

Definition primary : StreamOutcome := Stream_response (Resp_arbitration 0).

Definition ipv4_table (table_id : Z) (fields : list MatchField) : Table :=
  {| t_preamble := {| preamble_id := table_id; preamble_name := table_name |};
     match_fields := fields |}.

Definition to_port (action_id : Z) (ps : list Param) : Action :=
  {| a_preamble := {| preamble_id := action_id; preamble_name := action_name |};
     params := ps |}.

(** The table declares two match fields of the name [main] looks for. *)
Definition duplicate_field : P4Info :=
  {| tables := [ ipv4_table 33574068
                   [ {| mf_id := 1; mf_name := match_field |};
                     {| mf_id := 2; mf_name := match_field |} ] ];
     actions := [ to_port 16805608 [ {| p_id := 1; p_name := "port" |} ] ] |}.

(** All four names are there; the table has identifier 0. *)
Definition zero_table : P4Info :=
  {| tables := [ ipv4_table 0 [ {| mf_id := 1; mf_name := match_field |} ] ];
     actions := [ to_port 16805608 [ {| p_id := 1; p_name := "port" |} ] ] |}.

(** The action has parameters, none of them called ["port"]. *)
Definition other_params : P4Info :=
  {| tables := [ ipv4_table 33574068 [ {| mf_id := 1; mf_name := match_field |} ] ];
     actions := [ to_port 16805608 [ {| p_id := 7; p_name := "egress" |};
                                     {| p_id := 8; p_name := "queue" |} ] ] |}.

(** The action has no parameter. *)
Definition no_params : P4Info :=
  {| tables := [ ipv4_table 33574068 [ {| mf_id := 1; mf_name := match_field |} ] ];
     actions := [ to_port 16805608 [] ] |}.

Definition accepting (p : P4Info) : Env := env p primary true (fun _ => true).

End Sample.

(** The arguments that [insert_lpm] turns into fields of the request,
    in the order of the assignments. *)
Definition encode_rule (env : Env) (dst_ip : string) (prefix_len out_port : Z)
  : Result (list byte * Z * list byte) :=
  value <-? ipv4_to_bytes dst_ip ;;
  plen <-? set_int32 prefix_len ;;
  port <-? Py.to_bytes_big out_port 2 ;;
  _ <-? set_uint64 (device_id (args env)) ;;
  _ <-? set_uint64 (election_id (args env)) ;;
  Ok (value, plen, port).

(** The entries of the two rules that [main] inserts. *)
Definition first_entry (i : Ids) : TableEntry :=
  lpm_entry (id_value (ids_table i)) (id_value (ids_match_field i))
    (id_value (ids_action i)) (id_value (ids_param i))
    [x0a; x00; x00; x01] 32 [x00; x00].

Definition second_entry (i : Ids) : TableEntry :=
  lpm_entry (id_value (ids_table i)) (id_value (ids_match_field i))
    (id_value (ids_action i)) (id_value (ids_param i))
    [x0a; x00; x00; x02] 32 [x00; x01].

(** The check of one octet: its numeral has no dot and [int] reads it back. *)
Definition octet_checks (k : nat) : bool :=
  let n := Z.of_nat k in
  match Py.int (decimal n) with
  | Ok v => (v =? n) && no_dot (decimal n)
  | Err _ => false
  end.

(** Proof steps for runs of [main]. *)
Ltac unfold_main :=
  unfold run, main, next_stream, load_p4info, load_json,
    stub_SetForwardingPipelineConfig, try_except, bind, print, emit, lift, ret,
    return_, raise.

Ltac use_env :=
  repeat match goal with
         | H : _ = _ |- _ => progress rewrite H
         end.

(** ** The shape of a run

    Every run of [main], written as one case distinction on what the
    device and the files answer; [run_outline_eq] proves it equal to
    [run]. *)
Definition arbitration_trace (env : Env) : Trace :=
  [ Stream_opened;
    Stream_next (Stream_response (Resp_arbitration 0));
    Print (Info_became_primary (election_id (args env))) ].

Definition inserted_trace (env : Env) (p : P4Info) (dc : list byte) : Trace :=
  provision_trace env p dc ++
  write_events env 0 (lpm_write_request env (first_entry (lookup_ids p)))
    "10.0.0.1" 32 0 ++
  write_events env 1 (lpm_write_request env (second_entry (lookup_ids p)))
    "10.0.0.2" 32 1 ++
  [Print Info_all_inserted].

Definition lookup_failed_trace (env : Env) (p : P4Info) (dc : list byte) : Trace :=
  provision_trace env p dc ++
  [Print (Error_could_not_find_ids (ids_table (lookup_ids p))
            (ids_match_field (lookup_ids p)) (ids_action (lookup_ids p))
            (ids_param (lookup_ids p)))].

Definition run_outline (env : Env) : Control unit * Trace :=
  match stream_outcome env with
  | Stream_RpcError =>
      (Return, [Stream_opened; Stream_next Stream_RpcError; Print Error_stream_failed])
  | Stream_StopIteration =>
      (Raised StopIteration, [Stream_opened; Stream_next Stream_StopIteration])
  | Stream_response Resp_other =>
      (Return, [Stream_opened; Stream_next (Stream_response Resp_other);
                Print Error_unexpected_response])
  | Stream_response (Resp_arbitration code) =>
      if code =? 0 then
        match file_p4info env (p4info (args env)) with
        | Err _ => (Return, arbitration_trace env ++ [Print Error_load_p4info])
        | Ok p =>
            match file_json env (json (args env)) with
            | Err _ => (Return, arbitration_trace env ++ [Print Error_load_json])
            | Ok dc =>
                match set_uint64 (device_id (args env)) with
                | Err e => (Raised e, arbitration_trace env)
                | Ok _ =>
                    match set_uint64 (election_id (args env)) with
                    | Err e => (Raised e, arbitration_trace env)
                    | Ok _ =>
                        if pipeline_reply env (pipeline_request env p dc) then
                          if all_ids (lookup_ids p)
                          then (Next tt, inserted_trace env p dc)
                          else (Return, lookup_failed_trace env p dc)
                        else
                          (Return,
                           arbitration_trace env ++
                           [ Print Info_installing;
                             Rpc_SetForwardingPipelineConfig
                               (pipeline_request env p dc) false;
                             Print Error_set_pipeline_failed ])
                    end
                end
            end
        end
      else
        (Return, [Stream_opened; Stream_next (Stream_response (Resp_arbitration code));
                  Print (Error_not_primary code)])
  end.

Definition message_device_id (m : Message) : Z :=
  match m with
  | Msg_stream m => arb_device_id (arbitration m)
  | Msg_pipeline r => set_device_id r
  | Msg_write r => write_device_id r
  end.

Definition is_stream_next (ev : Event) : bool :=
  match ev with Stream_next _ => true | _ => false end.

Definition pipeline_requests (tr : Trace) : list SetForwardingPipelineConfigRequest :=
  flat_map (fun ev => match ev with
                      | Rpc_SetForwardingPipelineConfig r _ => [r]
                      | _ => []
                      end) tr.

(** The number of dots of a text. *)
Fixpoint count_dots (s : string) : nat :=
  match s with
  | EmptyString => O
  | String c rest => if Ascii.eqb c "."%char then S (count_dots rest) else count_dots rest
  end.

Definition int32 (v : Z) : Prop := - 2 ^ 31 <= v < 2 ^ 31.

(** * Properties *)

(** ** Integers and bytes *)

Lemma set_uint64_ok v : uint64 v -> set_uint64 v = Ok v.
Proof.
  unfold uint64, set_uint64. intros [H0 H1].
  destruct (Z.leb_spec 0 v); [|lia].
  destruct (Z.ltb_spec v (2 ^ 64)); [reflexivity|lia].
Qed.

Lemma set_uint64_inv v r : set_uint64 v = Ok r -> r = v /\ uint64 v.
Proof.
  unfold uint64, set_uint64.
  destruct (Z.leb_spec 0 v); destruct (Z.ltb_spec v (2 ^ 64)); simpl;
    intros E; inversion E; subst; lia.
Qed.

Lemma set_int32_inv v r : set_int32 v = Ok r -> r = v.
Proof.
  unfold set_int32.
  destruct ((- 2 ^ 31 <=? v) && (v <? 2 ^ 31)); intros E; inversion E; reflexivity.
Qed.

Lemma Z_of_byte_range b : 0 <= Py.Z_of_byte b < 256.
Proof.
  unfold Py.Z_of_byte. pose proof (Byte.to_N_bounded b). lia.
Qed.

Lemma byte_of_Z_of_byte b : Py.byte_of_Z (Py.Z_of_byte b) = Some b.
Proof.
  unfold Py.byte_of_Z. pose proof (Z_of_byte_range b) as R.
  destruct (Z.leb_spec 0 (Py.Z_of_byte b)); [|lia].
  destruct (Z.ltb_spec (Py.Z_of_byte b) 256); [|lia].
  simpl. unfold Py.Z_of_byte. rewrite N2Z.id. apply Byte.of_to_N.
Qed.

Lemma byte_of_Z_some n b : Py.byte_of_Z n = Some b <-> n = Py.Z_of_byte b /\ 0 <= n < 256.
Proof.
  split.
  - unfold Py.byte_of_Z.
    destruct (Z.leb_spec 0 n); destruct (Z.ltb_spec n 256); simpl; try discriminate.
    intros E. apply Byte.to_of_N in E. unfold Py.Z_of_byte. rewrite E. lia.
  - intros [-> _]. apply byte_of_Z_of_byte.
Qed.

Lemma byte_of_Z_total n : 0 <= n < 256 -> exists b, Py.byte_of_Z n = Some b /\ Py.Z_of_byte b = n.
Proof.
  intros R. unfold Py.byte_of_Z.
  destruct (Z.leb_spec 0 n); [|lia]. destruct (Z.ltb_spec n 256); [|lia]. simpl.
  destruct (Byte.of_N (Z.to_N n)) as [b|] eqn:E.
  - exists b. split; [reflexivity|]. apply Byte.to_of_N in E.
    unfold Py.Z_of_byte. rewrite E. lia.
  - apply Byte.of_N_None_iff in E. lia.
Qed.

Lemma low_bytes_length len : forall n, List.length (Py.low_bytes len n) = len.
Proof.
  induction len as [|k IH]; intros n; simpl; [reflexivity|].
  destruct (byte_of_Z_total (n := n mod 256)) as [b [E _]].
  { apply Z.mod_pos_bound. lia. }
  rewrite E. simpl. now rewrite IH.
Qed.

Lemma from_bytes_big_snoc bs b :
  Py.from_bytes_big (bs ++ [b]) = 256 * Py.from_bytes_big bs + Py.Z_of_byte b.
Proof.
  unfold Py.from_bytes_big. rewrite fold_left_app. reflexivity.
Qed.

Lemma from_bytes_big_low_bytes len :
  forall n, 0 <= n < 256 ^ Z.of_nat len ->
            Py.from_bytes_big (rev (Py.low_bytes len n)) = n.
Proof.
  induction len as [|k IH]; intros n R.
  - simpl in *. unfold Py.from_bytes_big. simpl. lia.
  - rewrite Nat2Z.inj_succ, Z.pow_succ_r in R by lia.
    simpl Py.low_bytes.
    destruct (byte_of_Z_total (n := n mod 256)) as [b [E V]].
    { apply Z.mod_pos_bound. lia. }
    rewrite E. simpl rev. rewrite from_bytes_big_snoc, V, IH.
    + symmetry. apply Z.div_mod. lia.
    + split; [apply Z.div_pos; lia|]. apply Z.div_lt_upper_bound; lia.
Qed.

Lemma to_bytes_big_overflow n len :
  n < 0 \/ 256 ^ Z.of_nat len <= n -> Py.to_bytes_big n len = Err OverflowError.
Proof.
  unfold Py.to_bytes_big. intros H.
  destruct (Z.ltb_spec n 0); [reflexivity|].
  destruct (Z.leb_spec (256 ^ Z.of_nat len) n); [reflexivity|lia].
Qed.

Lemma to_bytes_big_fits n len :
  0 <= n < 256 ^ Z.of_nat len ->
  exists bs, Py.to_bytes_big n len = Ok bs /\ List.length bs = len /\
             Py.from_bytes_big bs = n.
Proof.
  unfold Py.to_bytes_big. intros R.
  destruct (Z.ltb_spec n 0); [lia|].
  destruct (Z.leb_spec (256 ^ Z.of_nat len) n); [lia|].
  eexists. split; [reflexivity|]. split.
  - rewrite length_rev. apply low_bytes_length.
  - now apply from_bytes_big_low_bytes.
Qed.

(** ** [insert_lpm], case by case *)

Lemma insert_lpm_cases env t m a p dst_ip prefix_len out_port tr :
  insert_lpm env t m a p dst_ip prefix_len out_port tr =
  match encode_rule env dst_ip prefix_len out_port with
  | Err e => (Raised e, tr)
  | Ok (value, plen, port) =>
      (Next tt,
       tr ++ write_events env (List.length (filter is_write tr))
               (lpm_write_request env (lpm_entry t m a p value plen port))
               dst_ip prefix_len out_port)
  end.
Proof.
  unfold insert_lpm, encode_rule, bind, lift, rbind, ret, raise.
  destruct (ipv4_to_bytes dst_ip) as [value|e]; [|reflexivity].
  destruct (set_int32 prefix_len) as [plen|e]; [|reflexivity].
  destruct (Py.to_bytes_big out_port 2) as [port|e]; [|reflexivity].
  destruct (set_uint64 (device_id (args env))) as [dev|e] eqn:Ed; [|reflexivity].
  destruct (set_uint64 (election_id (args env))) as [lo|e] eqn:El; [|reflexivity].
  apply set_uint64_inv in Ed, El. destruct Ed as [-> _], El as [-> _].
  unfold try_except, stub_Write, write_events, lpm_write_request, lpm_entry,
    election_identity, bind, print, emit, ret, raise. simpl.
  match goal with |- context [write_reply env ?n ?r] => destruct (write_reply env n r) end;
    simpl; rewrite <- app_assoc; reflexivity.
Qed.

(** ** [main], stage by stage *)

Lemma run_provisioned env p dc :
  provisioned env p dc ->
  run env =
  let i := lookup_ids p in
  if all_ids i then
    (insert_lpm env (id_value (ids_table i)) (id_value (ids_match_field i))
       (id_value (ids_action i)) (id_value (ids_param i)) "10.0.0.1" 32 0 ;;
     insert_lpm env (id_value (ids_table i)) (id_value (ids_match_field i))
       (id_value (ids_action i)) (id_value (ids_param i)) "10.0.0.2" 32 1 ;;
     print Info_all_inserted) (provision_trace env p dc)
  else
    (Return,
     provision_trace env p dc ++
     [Print (Error_could_not_find_ids (ids_table i) (ids_match_field i)
               (ids_action i) (ids_param i))]).
Proof.
  intros [Hs Hp Hj Hd He Hr].
  unfold run, main, next_stream, load_p4info, load_json,
    stub_SetForwardingPipelineConfig, try_except, bind, print, emit, lift, ret,
    return_, raise.
  rewrite Hs. cbn [app negb Z.eqb is_RpcError any_Exception]. rewrite Hp, Hj.
  rewrite (set_uint64_ok Hd), (set_uint64_ok He).
  change {| set_device_id := device_id (args env);
            set_action := VERIFY_AND_COMMIT;
            set_election_id := {| high := 0; low := election_id (args env) |};
            config := {| config_p4info := p; p4_device_config := dc |} |}
    with (pipeline_request env p dc).
  rewrite Hr. cbn [app negb]. unfold provision_trace.
  destruct (all_ids (lookup_ids p)); reflexivity.
Qed.

Lemma encode_first env :
  uint64 (device_id (args env)) -> uint64 (election_id (args env)) ->
  encode_rule env "10.0.0.1" 32 0 = Ok ([x0a; x00; x00; x01], 32, [x00; x00]).
Proof.
  intros Hd He. unfold encode_rule.
  rewrite (set_uint64_ok Hd), (set_uint64_ok He). reflexivity.
Qed.

Lemma encode_second env :
  uint64 (device_id (args env)) -> uint64 (election_id (args env)) ->
  encode_rule env "10.0.0.2" 32 1 = Ok ([x0a; x00; x00; x02], 32, [x00; x01]).
Proof.
  intros Hd He. unfold encode_rule.
  rewrite (set_uint64_ok Hd), (set_uint64_ok He). reflexivity.
Qed.

Lemma write_events_count env n req dst plen port :
  List.length (filter is_write (write_events env n req dst plen port)) = 1%nat.
Proof.
  unfold write_events. destruct (write_reply env n req); reflexivity.
Qed.

Lemma writes_write_events env n req dst plen port :
  writes (write_events env n req dst plen port) = [req].
Proof.
  unfold write_events. destruct (write_reply env n req); reflexivity.
Qed.

Lemma writes_app tr1 tr2 : writes (tr1 ++ tr2) = writes tr1 ++ writes tr2.
Proof. unfold writes. apply flat_map_app. Qed.

(** A provisioned run whose four identifiers pass the test: both rules
    are written, whatever the device answers to the writes. *)
Lemma run_inserts env p dc :
  provisioned env p dc ->
  all_ids (lookup_ids p) = true ->
  run env =
  (Next tt,
   provision_trace env p dc ++
   write_events env 0 (lpm_write_request env (first_entry (lookup_ids p)))
     "10.0.0.1" 32 0 ++
   write_events env 1 (lpm_write_request env (second_entry (lookup_ids p)))
     "10.0.0.2" 32 1 ++
   [Print Info_all_inserted]).
Proof.
  intros Hprov Hall. rewrite (run_provisioned Hprov). cbv zeta. rewrite Hall.
  destruct Hprov as [_ _ _ Hd He _].
  unfold bind. rewrite insert_lpm_cases, (encode_first _ Hd He).
  rewrite insert_lpm_cases, (encode_second _ Hd He).
  rewrite filter_app, length_app, write_events_count.
  unfold print, emit, first_entry, second_entry.
  cbn [provision_trace filter is_write List.length Nat.add].
  rewrite <- !app_assoc. reflexivity.
Qed.

(** A provisioned run whose identifiers fail the test stops there. *)
Lemma run_lookup_fails env p dc :
  provisioned env p dc ->
  all_ids (lookup_ids p) = false ->
  run env =
  (Return,
   provision_trace env p dc ++
   [Print (Error_could_not_find_ids (ids_table (lookup_ids p))
             (ids_match_field (lookup_ids p)) (ids_action (lookup_ids p))
             (ids_param (lookup_ids p)))]).
Proof.
  intros Hprov Hall. rewrite (run_provisioned Hprov). cbv zeta. now rewrite Hall.
Qed.

(** Every run either is provisioned or writes nothing; in the second
    case the one request it may have sent carries the election id. *)
Lemma run_cases env :
  (exists p dc, provisioned env p dc) \/
  (writes (snd (run env)) = [] /\
   Forall (fun m => message_election_id m = election_identity env)
     (requests (snd (run env)))).
Proof.
  destruct (stream_outcome env) as [[code|]| |] eqn:Hs;
    try (right; unfold_main; use_env; split; [reflexivity|constructor]).
  destruct (Z.eqb_spec code 0) as [->|Hc].
  2:{ right. unfold_main. use_env. apply Z.eqb_neq in Hc. cbn [app]. rewrite Hc.
      split; [reflexivity|constructor]. }
  destruct (file_p4info env (p4info (args env))) as [p|e1] eqn:Hp;
    [|right; unfold_main; use_env; split; [reflexivity|constructor]].
  destruct (file_json env (json (args env))) as [dc|e2] eqn:Hj;
    [|right; unfold_main; use_env; split; [reflexivity|constructor]].
  destruct (set_uint64 (device_id (args env))) as [dev|e3] eqn:Hd;
    [|right; unfold_main; use_env; split; [reflexivity|constructor]].
  destruct (set_uint64 (election_id (args env))) as [lo|e4] eqn:He;
    [|right; unfold_main; use_env; split; [reflexivity|constructor]].
  destruct (pipeline_reply env (pipeline_request env p dc)) eqn:Hr.
  - left. exists p, dc. apply set_uint64_inv in Hd, He.
    constructor; tauto.
  - right. unfold_main. use_env.
    pose proof (set_uint64_inv _ Hd) as [-> _].
    pose proof (set_uint64_inv _ He) as [-> _].
    unfold pipeline_request, election_identity in Hr. cbn [app negb Z.eqb].
    rewrite Hr. split; [reflexivity|]. repeat constructor.
Qed.

(** ** Order of the RPCs *)

Lemma writes_nil_no_write tr pre req ok post :
  writes tr = [] -> tr <> pre ++ Rpc_Write req ok :: post.
Proof.
  intros Hw ->. rewrite writes_app in Hw. simpl in Hw.
  destruct (writes pre); discriminate.
Qed.

Lemma prefix_before_write (front : Trace) :
  forall rest pre req ok post,
    writes front = [] ->
    front ++ rest = pre ++ Rpc_Write req ok :: post ->
    exists pre', pre = front ++ pre'.
Proof.
  induction front as [|ev front IH]; intros rest pre req ok post Hw Heq.
  - now exists pre.
  - destruct pre as [|ev' pre]; simpl in Heq; inversion Heq; subst.
    + discriminate Hw.
    + assert (Hw' : writes front = []).
      { unfold writes in *. simpl in Hw. now apply app_eq_nil in Hw. }
      destruct (IH _ _ _ _ _ Hw' H1) as [pre' ->]. now exists pre'.
Qed.

Lemma provisioned_trace_prefix env p dc :
  provisioned env p dc ->
  exists rest,
    snd (run env) = provision_trace env p dc ++ rest /\
    forall set_req, ~ In (Rpc_SetForwardingPipelineConfig set_req false) rest.
Proof.
  intros Hprov. destruct (all_ids (lookup_ids p)) eqn:Hall.
  - rewrite (run_inserts Hprov Hall). eexists. split; [reflexivity|].
    intros set_req Hin. unfold write_events in Hin.
    repeat match type of Hin with
           | context [if ?b then _ else _] => destruct b
           end;
      simpl in Hin; intuition discriminate.
  - rewrite (run_lookup_fails Hprov Hall). eexists. split; [reflexivity|].
    intros set_req Hin. simpl in Hin. intuition discriminate.
Qed.

(** C1.  In every run, a write request is submitted only after the stream
    has delivered an arbitration update with status code 0 and after a
    pipeline installation call has succeeded: both events lie in the
    trace before the write.  A run whose arbitration does not end with
    status code 0, or whose pipeline installation call fails, submits no
    write request at all. *)
Theorem no_write_before_primary_and_pipeline (env : Env) :
  (forall pre req ok post,
      snd (run env) = pre ++ Rpc_Write req ok :: post ->
      In (Stream_next (Stream_response (Resp_arbitration 0))) pre /\
      exists set_req, In (Rpc_SetForwardingPipelineConfig set_req true) pre) /\
  (stream_outcome env <> Stream_response (Resp_arbitration 0) ->
   writes (snd (run env)) = []) /\
  ((exists set_req,
       In (Rpc_SetForwardingPipelineConfig set_req false) (snd (run env))) ->
   writes (snd (run env)) = []).
Proof.
  destruct (run_cases env) as [(p & dc & Hprov)|Hnone].
  - destruct (provisioned_trace_prefix Hprov) as (rest & Htr & Hrest).
    split; [|split].
    + intros pre req ok post Heq. rewrite Htr in Heq.
      apply prefix_before_write in Heq; [|reflexivity].
      destruct Heq as [pre' ->]. split.
      * apply in_or_app. left. simpl. tauto.
      * exists (pipeline_request env p dc). apply in_or_app. left. simpl. tauto.
    + intros Hne. destruct Hprov. contradiction.
    + intros [set_req Hin]. rewrite Htr in Hin. apply in_app_or in Hin.
      destruct Hin as [Hin|Hin].
      * simpl in Hin. intuition discriminate.
      * now apply Hrest in Hin.
  - destruct Hnone as [Hnone _]. split; [|split]; try (intros; exact Hnone).
    intros pre req ok post Heq. exfalso.
    exact (writes_nil_no_write _ _ _ _ Hnone Heq).
Qed.

Lemma no_write_before_primary_and_pipeline_witness :
  (In (Stream_next Sample.primary)
      (provision_trace (Sample.env Sample.program Sample.primary true (fun _ => true))
         Sample.program []) /\
   exists set_req,
     In (Rpc_SetForwardingPipelineConfig set_req true)
        (provision_trace (Sample.env Sample.program Sample.primary true (fun _ => true))
           Sample.program [])) /\
  writes (snd (run (Sample.env Sample.program
                      (Stream_response (Resp_arbitration 2)) true (fun _ => true)))) = [] /\
  writes (snd (run (Sample.env Sample.program Sample.primary false (fun _ => true)))) = [].
Proof.
  split; [|split].
  - set (env := Sample.env Sample.program Sample.primary true (fun _ => true)).
    apply (proj1 (no_write_before_primary_and_pipeline env)
             (provision_trace env Sample.program [])
             (lpm_write_request env (first_entry (lookup_ids Sample.program)))
             true
             (skipn 7 (snd (run env)))).
    reflexivity.
  - apply (proj1 (proj2 (no_write_before_primary_and_pipeline _))).
    simpl. discriminate.
  - apply (proj2 (proj2 (no_write_before_primary_and_pipeline _))).
    eexists. simpl. do 4 right. left. reflexivity.
Defined.

(** ** The election identity *)

Lemma arbitration_request_identity a req :
  arbitration_request a = Ok req ->
  arb_election_id (arbitration req) = {| high := 0; low := election_id a |}.
Proof.
  unfold arbitration_request, rbind.
  destruct (set_uint64 (device_id a)) as [dev|]; [|discriminate].
  destruct (set_uint64 (election_id a)) as [lo|] eqn:El; [|discriminate].
  apply set_uint64_inv in El. destruct El as [-> _].
  intros E. inversion E. reflexivity.
Qed.

Lemma keep_alive_identity a n :
  Forall (fun m => arb_election_id (arbitration m) = {| high := 0; low := election_id a |})
    (keep_alive a n).
Proof.
  induction n as [|k IH]; simpl; [constructor|].
  destruct (arbitration_request a) as [keep|] eqn:E; constructor.
  - now apply arbitration_request_identity.
  - exact IH.
Qed.

Lemma stream_requests_identity a n :
  Forall (fun m => arb_election_id (arbitration m) = {| high := 0; low := election_id a |})
    (stream_requests a n).
Proof.
  destruct n as [|k]; simpl; [constructor|].
  destruct (arbitration_request a) as [req|] eqn:E; constructor.
  - now apply arbitration_request_identity.
  - apply keep_alive_identity.
Qed.

(** With identifiers in range the generator never ends, and every message
    it yields is the same arbitration claim. *)
Lemma stream_requests_repeat a n :
  uint64 (device_id a) -> uint64 (election_id a) ->
  stream_requests a n =
  repeat {| arbitration :=
              {| arb_device_id := device_id a;
                 arb_election_id := {| high := 0; low := election_id a |} |} |} n.
Proof.
  intros Hd He.
  assert (E : arbitration_request a =
              Ok {| arbitration :=
                      {| arb_device_id := device_id a;
                         arb_election_id := {| high := 0; low := election_id a |} |} |}).
  { unfold arbitration_request. now rewrite (set_uint64_ok Hd), (set_uint64_ok He). }
  destruct n as [|k]; simpl; [reflexivity|]. rewrite E. f_equal.
  induction k as [|k IH]; simpl; [reflexivity|]. rewrite E. now f_equal.
Qed.

Lemma requests_app tr1 tr2 : requests (tr1 ++ tr2) = requests tr1 ++ requests tr2.
Proof. unfold requests. apply flat_map_app. Qed.

Lemma requests_write_events env n req dst plen port :
  requests (write_events env n req dst plen port) = [Msg_write req].
Proof.
  unfold write_events. destruct (write_reply env n req); reflexivity.
Qed.

(** C8.  Every message sent to the device in one session carries the same
    election identity, high word 0 and low word the election id of the
    command line: the first arbitration claim and every later claim of the
    stream, however many the stream has taken, the pipeline installation
    request and every write request. *)
Theorem election_identity_constant (env : Env) (n : nat) :
  Forall (fun m => message_election_id m =
                   {| high := 0; low := election_id (args env) |})
    (sent_messages env n).
Proof.
  unfold sent_messages. apply Forall_app. split.
  - apply Forall_map. apply stream_requests_identity.
  - destruct (run_cases env) as [(p & dc & Hprov)|[_ Hreq]]; [|exact Hreq].
    destruct (all_ids (lookup_ids p)) eqn:Hall.
    + rewrite (run_inserts Hprov Hall). cbn [snd].
      rewrite !requests_app, !requests_write_events. repeat constructor.
    + rewrite (run_lookup_fails Hprov Hall). repeat constructor.
Qed.

(** ** The lookup *)

(** The table loop stops at the first table of the name. *)
Lemma scan_tables_find ts :
  scan_tables ts =
  match find is_table ts with
  | Some t => (Some (preamble_id (t_preamble t)), scan_match_fields (match_fields t) None)
  | None => (None, None)
  end.
Proof.
  induction ts as [|t ts IH]; simpl; [reflexivity|].
  unfold is_table at 1. destruct (preamble_name (t_preamble t) =? table_name)%string;
    [reflexivity|exact IH].
Qed.

Lemma find_append {A} (f : A -> bool) (l1 l2 : list A) :
  find f (l1 ++ l2) =
  match find f l1 with
  | Some x => Some x
  | None => find f l2
  end.
Proof.
  induction l1 as [|x l1 IH]; simpl; [reflexivity|].
  destruct (f x); [reflexivity|exact IH].
Qed.

(** The match field loop keeps the last field of the name. *)
Lemma scan_match_fields_last mfs :
  forall acc,
    scan_match_fields mfs acc =
    match find is_match_field (rev mfs) with
    | Some mf => Some (mf_id mf)
    | None => acc
    end.
Proof.
  induction mfs as [|mf mfs IH]; intros acc; [reflexivity|].
  cbn [scan_match_fields rev]. rewrite find_append, !IH. cbn [find].
  change (mf_name mf =? match_field)%string with (is_match_field mf).
  destruct (find is_match_field (rev mfs)); destruct (is_match_field mf); reflexivity.
Qed.

Lemma scan_params_find ps : scan_params ps = option_map p_id (find is_port ps).
Proof.
  induction ps as [|pa ps IH]; simpl; [reflexivity|].
  unfold is_port at 1. destruct (p_name pa =? "port")%string; [reflexivity|exact IH].
Qed.

(** The action loop stops at the first action of the name. *)
Lemma scan_actions_find acts :
  scan_actions acts =
  match find is_action acts with
  | Some a => (Some (preamble_id (a_preamble a)), action_param_id a)
  | None => (None, None)
  end.
Proof.
  induction acts as [|a acts IH]; simpl; [reflexivity|].
  unfold is_action at 1. destruct (preamble_name (a_preamble a) =? action_name)%string;
    [reflexivity|exact IH].
Qed.

Lemma lookup_ids_named p t a :
  named_table p t -> named_action p a ->
  lookup_ids p =
  {| ids_table := Some (preamble_id (t_preamble t));
     ids_match_field := scan_match_fields (match_fields t) None;
     ids_action := Some (preamble_id (a_preamble a));
     ids_param := action_param_id a |}.
Proof.
  unfold named_table, named_action, lookup_ids. intros Ht Ha.
  rewrite scan_tables_find, scan_actions_find, Ht, Ha. reflexivity.
Qed.

Lemma lookup_ids_param p a :
  named_action p a -> ids_param (lookup_ids p) = action_param_id a.
Proof.
  unfold named_action, lookup_ids. intros Ha.
  rewrite scan_actions_find, Ha. destruct (scan_tables (tables p)). reflexivity.
Qed.

Lemma find_none_not_port ps :
  (forall pa, In pa ps -> p_name pa <> "port") -> find is_port ps = None.
Proof.
  intros H. destruct (find is_port ps) as [pa|] eqn:E; [|reflexivity].
  apply find_some in E. destruct E as [Hin Hp]. unfold is_port in Hp.
  apply String.eqb_eq in Hp. now apply H in Hin.
Qed.

Lemma find_some_exists {A} (f : A -> bool) l :
  (exists x, In x l /\ f x = true) -> exists y, find f l = Some y.
Proof.
  intros (x & Hin & Hf). destruct (find f l) as [y|] eqn:E; [now exists y|].
  exfalso. pose proof (find_none _ _ E _ Hin) as Hn. congruence.
Qed.

Lemma all_ids_param_none i : ids_param i = None -> all_ids i = false.
Proof.
  unfold all_ids. simpl. intros ->. simpl. now rewrite !andb_false_r.
Qed.

Lemma all_ids_zero i :
  In (Some 0) [ids_table i; ids_match_field i; ids_action i; ids_param i] ->
  all_ids i = false.
Proof.
  unfold all_ids. simpl.
  intros [E|[E|[E|[E|[]]]]]; rewrite E; simpl; now rewrite ?andb_false_r.
Qed.

(** ** The sample device *)

Lemma accepting_provisioned (p : P4Info) : provisioned (Sample.accepting p) p [].
Proof.
  constructor; try reflexivity; unfold uint64; simpl; lia.
Defined.

(** ** What the lookup returns *)

(** C2, at a description whose table declares the match field name twice
    (identifiers 1 and 2, in this order).  The table identifier is that
    of the first table of the name; the match field identifier is 2, that
    of the last field of the name, and not 1, that of the first; and the
    rules the run then writes match on field 2. *)
Theorem lookup_duplicate_match_field :
  named_table Sample.duplicate_field
    (Sample.ipv4_table 33574068
       [ {| mf_id := 1; mf_name := match_field |};
         {| mf_id := 2; mf_name := match_field |} ]) /\
  ids_table (lookup_ids Sample.duplicate_field) = Some 33574068 /\
  option_map mf_id
    (find is_match_field
       [ {| mf_id := 1; mf_name := match_field |};
         {| mf_id := 2; mf_name := match_field |} ]) = Some 1 /\
  ids_match_field (lookup_ids Sample.duplicate_field) = Some 2 /\
  map (fun req => map (fun u => map field_id (te_match (upd_table_entry u))) (updates req))
    (writes (snd (run (Sample.accepting Sample.duplicate_field)))) = [[[2]]; [[2]]].
Proof.
  repeat split; reflexivity.
Qed.

(** C5.  Let the first action of the requested name have no parameter
    called "port".  If it has parameters, the parameter identifier the
    lookup returns is that of the first one declared, and this is the
    identifier in every rule the run writes.  If it has none, the lookup
    returns no parameter identifier and a run that has come this far
    stops with the error about the identifiers, writing nothing. *)
Theorem param_fallback_first (p : P4Info) (a : Action) :
  named_action p a ->
  (forall pa, In pa (params a) -> p_name pa <> "port") ->
  match params a with
  | p0 :: _ =>
      ids_param (lookup_ids p) = Some (p_id p0) /\
      forall env dc req u,
        provisioned env p dc ->
        In req (writes (snd (run env))) -> In u (updates req) ->
        map param_id (action_params (te_action (upd_table_entry u))) = [p_id p0]
  | [] =>
      ids_param (lookup_ids p) = None /\
      forall env dc,
        provisioned env p dc ->
        run env =
        (Return,
         provision_trace env p dc ++
         [Print (Error_could_not_find_ids (ids_table (lookup_ids p))
                   (ids_match_field (lookup_ids p)) (ids_action (lookup_ids p)) None)])
  end.
Proof.
  intros Ha Hnone.
  pose proof (lookup_ids_param Ha) as Hp.
  unfold action_param_id in Hp.
  rewrite scan_params_find, (find_none_not_port _ Hnone) in Hp. simpl in Hp.
  destruct (params a) as [|p0 ps].
  - split; [exact Hp|]. intros env dc Hprov.
    rewrite (run_lookup_fails Hprov (all_ids_param_none _ Hp)). now rewrite Hp.
  - split; [exact Hp|]. intros env dc req u Hprov Hreq Hu.
    destruct (all_ids (lookup_ids p)) eqn:Hall.
    + rewrite (run_inserts Hprov Hall) in Hreq. cbn [snd] in Hreq.
      rewrite !writes_app, !writes_write_events in Hreq.
      unfold first_entry, second_entry in Hreq. rewrite Hp in Hreq.
      simpl in Hreq.
      destruct Hreq as [<-|[<-|[]]]; destruct Hu as [<-|[]]; reflexivity.
    + rewrite (run_lookup_fails Hprov Hall) in Hreq. destruct Hreq.
Qed.

Lemma param_fallback_first_witness :
  (ids_param (lookup_ids Sample.other_params) = Some 7 /\
   forall env dc req u,
     provisioned env Sample.other_params dc ->
     In req (writes (snd (run env))) -> In u (updates req) ->
     map param_id (action_params (te_action (upd_table_entry u))) = [7]) /\
  (ids_param (lookup_ids Sample.no_params) = None /\
   forall env dc,
     provisioned env Sample.no_params dc ->
     run env =
     (Return,
      provision_trace env Sample.no_params dc ++
      [Print (Error_could_not_find_ids (Some 33574068) (Some 1) (Some 16805608) None)])).
Proof.
  split.
  - apply (@param_fallback_first Sample.other_params
             (Sample.to_port 16805608 [ {| p_id := 7; p_name := "egress" |};
                                        {| p_id := 8; p_name := "queue" |} ])).
    + reflexivity.
    + simpl. intros pa [<-|[<-|[]]]; simpl; discriminate.
  - apply (@param_fallback_first Sample.no_params (Sample.to_port 16805608 [])).
    + reflexivity.
    + simpl. intros pa [].
Defined.

(** C9.  Let all four names be in the description: the table, in the
    first table of that name the match field, the action, and in the
    first action of that name a parameter called "port".  Then the lookup
    finds an integer for each of the four.  If one of the four integers
    is 0, a run that has installed the pipeline still stops with the
    error about the identifiers and writes nothing: the test is on the
    truth value of the identifier. *)
Theorem zero_identifier_aborts (env : Env) (p : P4Info) (dc : list byte)
    (t : Table) (a : Action) :
  provisioned env p dc ->
  named_table p t ->
  (exists mf, In mf (match_fields t) /\ mf_name mf = match_field) ->
  named_action p a ->
  (exists pa, In pa (params a) /\ p_name pa = "port") ->
  In (Some 0) [ids_table (lookup_ids p); ids_match_field (lookup_ids p);
               ids_action (lookup_ids p); ids_param (lookup_ids p)] ->
  (exists ti mi ai pi,
      lookup_ids p = {| ids_table := Some ti; ids_match_field := Some mi;
                        ids_action := Some ai; ids_param := Some pi |} /\
      run env =
      (Return,
       provision_trace env p dc ++
       [Print (Error_could_not_find_ids (Some ti) (Some mi) (Some ai) (Some pi))])) /\
  writes (snd (run env)) = [].
Proof.
  intros Hprov Ht (mf & Hmf & Hmfn) Ha (pa & Hpa & Hpan) Hzero.
  pose proof (run_lookup_fails Hprov (all_ids_zero _ Hzero)) as Hrun.
  rewrite (lookup_ids_named Ht Ha) in *. cbn [ids_table ids_match_field ids_action ids_param] in *.
  destruct (@find_some_exists _ is_match_field (rev (match_fields t))) as [mf' Emf].
  { exists mf. split; [now apply in_rev in Hmf|]. unfold is_match_field.
    now apply String.eqb_eq. }
  destruct (@find_some_exists _ is_port (params a)) as [pa' Epa].
  { exists pa. split; [exact Hpa|]. unfold is_port. now apply String.eqb_eq. }
  rewrite scan_match_fields_last, Emf in *.
  unfold action_param_id in *. rewrite scan_params_find, Epa in *.
  cbn [option_map] in *. split.
  - do 4 eexists. split; [reflexivity|exact Hrun].
  - rewrite Hrun. reflexivity.
Qed.

Lemma zero_identifier_aborts_witness :
  (exists ti mi ai pi,
      lookup_ids Sample.zero_table =
      {| ids_table := Some ti; ids_match_field := Some mi;
         ids_action := Some ai; ids_param := Some pi |} /\
      run (Sample.accepting Sample.zero_table) =
      (Return,
       provision_trace (Sample.accepting Sample.zero_table) Sample.zero_table [] ++
       [Print (Error_could_not_find_ids (Some ti) (Some mi) (Some ai) (Some pi))])) /\
  writes (snd (run (Sample.accepting Sample.zero_table))) = [].
Proof.
  apply (@zero_identifier_aborts (Sample.accepting Sample.zero_table) Sample.zero_table []
           (Sample.ipv4_table 0 [ {| mf_id := 1; mf_name := match_field |} ])
           (Sample.to_port 16805608 [ {| p_id := 1; p_name := "port" |} ])).
  - apply accepting_provisioned.
  - reflexivity.
  - eexists. split; [left; reflexivity|reflexivity].
  - reflexivity.
  - eexists. split; [left; reflexivity|reflexivity].
  - simpl. left. reflexivity.
Defined.

(** ** One write for each rule *)

(** C6.  A call of [insert_lpm] either fails while it encodes its
    arguments, before any request exists, or submits exactly one write
    request, which holds exactly one update, an INSERT of one table entry
    with one LPM match and one action parameter.  A provisioned run whose
    identifiers pass the test submits exactly two write requests, the
    first for destination bytes 10.0.0.1 with port bytes 0.0, the second
    for 10.0.0.2 with port bytes 0.1, both with prefix length 32. *)
Theorem one_write_per_insert (env : Env) :
  (forall t m a pa dst_ip prefix_len out_port tr,
      (exists e, insert_lpm env t m a pa dst_ip prefix_len out_port tr = (Raised e, tr)) \/
      (exists value port ok out,
          ipv4_to_bytes dst_ip = Ok value /\
          Py.to_bytes_big out_port 2 = Ok port /\
          insert_lpm env t m a pa dst_ip prefix_len out_port tr =
          (Next tt,
           tr ++
           [ Rpc_Write
               {| write_device_id := device_id (args env);
                  write_election_id := election_identity env;
                  updates :=
                    [ {| upd_type := INSERT;
                         upd_table_entry :=
                           {| table_id := t;
                              te_match :=
                                [ {| field_id := m;
                                     lpm := {| lpm_value := value;
                                               lpm_prefix_len := prefix_len |} |} ];
                              te_action :=
                                {| action_id := a;
                                   action_params :=
                                     [ {| param_id := pa; param_value := port |} ] |}
                           |} |} ] |} ok;
             Print out ]))) /\
  (forall p dc,
      provisioned env p dc ->
      all_ids (lookup_ids p) = true ->
      writes (snd (run env)) =
      [ lpm_write_request env
          (lpm_entry (id_value (ids_table (lookup_ids p)))
             (id_value (ids_match_field (lookup_ids p)))
             (id_value (ids_action (lookup_ids p)))
             (id_value (ids_param (lookup_ids p)))
             [x0a; x00; x00; x01] 32 [x00; x00]);
        lpm_write_request env
          (lpm_entry (id_value (ids_table (lookup_ids p)))
             (id_value (ids_match_field (lookup_ids p)))
             (id_value (ids_action (lookup_ids p)))
             (id_value (ids_param (lookup_ids p)))
             [x0a; x00; x00; x02] 32 [x00; x01]) ]).
Proof.
  split.
  - intros t m a pa dst_ip prefix_len out_port tr.
    rewrite insert_lpm_cases. unfold encode_rule, rbind.
    destruct (ipv4_to_bytes dst_ip) as [value|e]; [|left; now exists e].
    destruct (set_int32 prefix_len) as [plen|e] eqn:Ep; [|left; now exists e].
    destruct (Py.to_bytes_big out_port 2) as [port|e]; [|left; now exists e].
    destruct (set_uint64 (device_id (args env))) as [dev|e]; [|left; now exists e].
    destruct (set_uint64 (election_id (args env))) as [lo|e]; [|left; now exists e].
    apply set_int32_inv in Ep. subst plen. right.
    unfold write_events, lpm_write_request, lpm_entry.
    match goal with
    | |- context [write_reply env ?n ?r] => destruct (write_reply env n r)
    end; do 4 eexists; repeat split; reflexivity.
  - intros p dc Hprov Hall. rewrite (run_inserts Hprov Hall). cbn [snd].
    rewrite !writes_app, !writes_write_events. reflexivity.
Qed.

Lemma one_write_per_insert_witness :
  writes (snd (run (Sample.accepting Sample.program))) =
  [ lpm_write_request (Sample.accepting Sample.program)
      (lpm_entry 33574068 1 16805608 1 [x0a; x00; x00; x01] 32 [x00; x00]);
    lpm_write_request (Sample.accepting Sample.program)
      (lpm_entry 33574068 1 16805608 1 [x0a; x00; x00; x02] 32 [x00; x01]) ].
Proof.
  apply (proj2 (one_write_per_insert (Sample.accepting Sample.program))
           Sample.program []).
  - apply accepting_provisioned.
  - reflexivity.
Defined.

(** ** A rejected write *)

(** C7.  When the device rejects the write of a call of [insert_lpm], the
    call reports the failure and ends as a call that succeeded does: no
    exception leaves it.  In a provisioned run whose identifiers pass the
    test, both rules are submitted whatever the device answers: if the
    first write is rejected, the failure is printed and the second write
    follows; and the requests are the same for two devices that differ
    only in their answers to the writes. *)
Theorem write_failure_not_fatal (env : Env) :
  (forall t m a pa dst_ip prefix_len out_port tr value plen port,
      encode_rule env dst_ip prefix_len out_port = Ok (value, plen, port) ->
      write_reply env (List.length (filter is_write tr))
        (lpm_write_request env (lpm_entry t m a pa value plen port)) = false ->
      insert_lpm env t m a pa dst_ip prefix_len out_port tr =
      (Next tt,
       tr ++ [ Rpc_Write (lpm_write_request env (lpm_entry t m a pa value plen port)) false;
               Print Error_write_failed ])) /\
  (forall p dc,
      provisioned env p dc ->
      all_ids (lookup_ids p) = true ->
      write_reply env 0 (lpm_write_request env (first_entry (lookup_ids p))) = false ->
      run env =
      (Next tt,
       provision_trace env p dc ++
       [ Rpc_Write (lpm_write_request env (first_entry (lookup_ids p))) false;
         Print Error_write_failed ] ++
       write_events env 1 (lpm_write_request env (second_entry (lookup_ids p)))
         "10.0.0.2" 32 1 ++
       [ Print Info_all_inserted ])) /\
  (forall env' p dc dc',
      args env' = args env ->
      provisioned env p dc -> provisioned env' p dc' ->
      writes (snd (run env')) = writes (snd (run env))).
Proof.
  split; [|split].
  - intros t m a pa dst_ip prefix_len out_port tr value plen port Henc Hrej.
    rewrite insert_lpm_cases, Henc. unfold write_events. now rewrite Hrej.
  - intros p dc Hprov Hall Hrej. rewrite (run_inserts Hprov Hall).
    unfold write_events at 1. now rewrite Hrej.
  - intros env' p dc dc' Hargs Hprov Hprov'.
    destruct (all_ids (lookup_ids p)) eqn:Hall.
    + rewrite (run_inserts Hprov Hall), (run_inserts Hprov' Hall). cbn [snd].
      rewrite !writes_app, !writes_write_events.
      unfold lpm_write_request, election_identity. now rewrite Hargs.
    + now rewrite (run_lookup_fails Hprov Hall), (run_lookup_fails Hprov' Hall).
Qed.

Lemma write_failure_not_fatal_witness :
  insert_lpm (Sample.env Sample.program Sample.primary true (fun _ => false))
    33574068 1 16805608 1 "10.0.0.1" 32 0 [] =
  (Next tt,
   [] ++
   [ Rpc_Write
       (lpm_write_request (Sample.env Sample.program Sample.primary true (fun _ => false))
          (lpm_entry 33574068 1 16805608 1 [x0a; x00; x00; x01] 32 [x00; x00])) false;
     Print Error_write_failed ]) /\
  run (Sample.env Sample.program Sample.primary true (fun _ => false)) =
  (Next tt,
   provision_trace (Sample.env Sample.program Sample.primary true (fun _ => false))
     Sample.program [] ++
   [ Rpc_Write (lpm_write_request (Sample.accepting Sample.program)
                  (first_entry (lookup_ids Sample.program))) false;
     Print Error_write_failed;
     Rpc_Write (lpm_write_request (Sample.accepting Sample.program)
                  (second_entry (lookup_ids Sample.program))) false;
     Print Error_write_failed;
     Print Info_all_inserted ]) /\
  writes (snd (run (Sample.env Sample.program Sample.primary true (fun _ => false)))) =
  writes (snd (run (Sample.accepting Sample.program))).
Proof.
  split; [|split].
  - apply (proj1 (write_failure_not_fatal
                    (Sample.env Sample.program Sample.primary true (fun _ => false))));
      reflexivity.
  - apply (proj1 (proj2 (write_failure_not_fatal
                           (Sample.env Sample.program Sample.primary true (fun _ => false))))
             Sample.program []).
    + constructor; try reflexivity; unfold uint64; simpl; lia.
    + reflexivity.
    + reflexivity.
  - apply (proj2 (proj2 (write_failure_not_fatal (Sample.accepting Sample.program)))
             (Sample.env Sample.program Sample.primary true (fun _ => false))
             Sample.program [] []).
    + reflexivity.
    + apply accepting_provisioned.
    + constructor; try reflexivity; unfold uint64; simpl; lia.
Defined.

(** ** Addresses *)

Lemma int_error s e : Py.int s = Err e -> e = ValueError.
Proof.
  unfold Py.int.
  repeat match goal with
         | |- context [match ?x with _ => _ end] => destruct x
         | |- context [if ?x then _ else _] => destruct x
         end;
    intros E; inversion E; reflexivity.
Qed.

Lemma bytes_map_error {A} (f : A -> Result Z) xs e :
  (forall x e', f x = Err e' -> e' = ValueError) ->
  Py.bytes_map f xs = Err e -> e = ValueError.
Proof.
  intros Hf. induction xs as [|x xs IH]; simpl; [discriminate|].
  unfold rbind. destruct (f x) as [n|e'] eqn:E.
  - destruct (Py.byte_of_Z n); [|intros H; now inversion H].
    destruct (Py.bytes_map f xs); [discriminate|].
    intros H. inversion H. subst. now apply IH.
  - intros H. inversion H. subst. now apply Hf in E.
Qed.

Lemma bytes_map_ok {A} (f : A -> Result Z) xs :
  forall bs,
    Py.bytes_map f xs = Ok bs <->
    Forall2 (fun x b => f x = Ok (Py.Z_of_byte b)) xs bs.
Proof.
  induction xs as [|x xs IH]; intros bs; simpl.
  - split.
    + intros H. inversion H. constructor.
    + intros H. inversion H. reflexivity.
  - unfold rbind. split.
    + destruct (f x) as [n|] eqn:E; [|discriminate].
      destruct (Py.byte_of_Z n) as [b|] eqn:Eb; [|discriminate].
      destruct (Py.bytes_map f xs) as [bs'|] eqn:Em; [|discriminate].
      intros H. inversion H. subst. constructor.
      * apply byte_of_Z_some in Eb. destruct Eb as [-> _]. exact E.
      * now apply IH.
    + intros H. inversion H as [|x' b xs' bs' Hx Hrest]. subst.
      rewrite Hx, byte_of_Z_of_byte. apply IH in Hrest. now rewrite Hrest.
Qed.

Lemma split_no_dot_end s : no_dot s = true -> Py.split "."%char s = [s].
Proof.
  induction s as [|c s IH]; simpl; [reflexivity|].
  destruct (Ascii.eqb c "."%char); simpl; [discriminate|].
  intros H. now rewrite (IH H).
Qed.

Lemma split_no_dot s rest :
  no_dot s = true ->
  Py.split "."%char (s ++ "." ++ rest) = s :: Py.split "."%char rest.
Proof.
  induction s as [|c s IH]; [reflexivity|].
  change (String c s ++ "." ++ rest)%string with (String c (s ++ "." ++ rest)).
  cbn [Py.split no_dot].
  destruct (Ascii.eqb c "."%char); cbn [negb andb]; [discriminate|].
  intros H. now rewrite (IH H).
Qed.

Lemma octets_check : forallb octet_checks (seq 0 256) = true.
Proof. vm_compute. reflexivity. Qed.

Lemma decimal_octet n :
  octet n -> Py.int (decimal n) = Ok n /\ no_dot (decimal n) = true.
Proof.
  intros R. unfold octet in R.
  pose proof octets_check as H. rewrite forallb_forall in H.
  specialize (H (Z.to_nat n)). unfold octet_checks in H.
  rewrite Z2Nat.id in H by lia.
  assert (Hin : In (Z.to_nat n) (seq 0 256)) by (apply in_seq; lia).
  apply H in Hin. destruct (Py.int (decimal n)) as [v|]; [|discriminate].
  apply andb_true_iff in Hin. destruct Hin as [Hv Hd].
  apply Z.eqb_eq in Hv. now subst.
Qed.

Lemma split_dotted_quad a b c d :
  octet a -> octet b -> octet c -> octet d ->
  Py.split "."%char (dotted_quad a b c d) = [decimal a; decimal b; decimal c; decimal d].
Proof.
  intros Ha Hb Hc Hd. unfold dotted_quad.
  rewrite (split_no_dot (decimal a)) by now apply decimal_octet.
  rewrite (split_no_dot (decimal b)) by now apply decimal_octet.
  rewrite (split_no_dot (decimal c)) by now apply decimal_octet.
  rewrite split_no_dot_end by now apply decimal_octet.
  reflexivity.
Qed.

Lemma ipv4_to_bytes_dotted_quad a b c d :
  octet a -> octet b -> octet c -> octet d ->
  exists value,
    ipv4_to_bytes (dotted_quad a b c d) = Ok value /\
    map Py.Z_of_byte value = [a; b; c; d].
Proof.
  intros Ha Hb Hc Hd. unfold ipv4_to_bytes.
  rewrite split_dotted_quad by assumption.
  destruct (byte_of_Z_total Ha) as (ba & _ & Va).
  destruct (byte_of_Z_total Hb) as (bb & _ & Vb).
  destruct (byte_of_Z_total Hc) as (bc & _ & Vc).
  destruct (byte_of_Z_total Hd) as (bd & _ & Vd).
  exists [ba; bb; bc; bd]. split.
  - apply bytes_map_ok. repeat constructor.
    + rewrite Va. now apply decimal_octet.
    + rewrite Vb. now apply decimal_octet.
    + rewrite Vc. now apply decimal_octet.
    + rewrite Vd. now apply decimal_octet.
  - simpl. now rewrite Va, Vb, Vc, Vd.
Qed.

Lemma insert_lpm_address_error env t m a pa dst_ip prefix_len out_port tr e :
  ipv4_to_bytes dst_ip = Err e ->
  insert_lpm env t m a pa dst_ip prefix_len out_port tr = (Raised e, tr).
Proof.
  intros E. rewrite insert_lpm_cases. unfold encode_rule. now rewrite E.
Qed.

(** C4, at the address text "10.0.0".  The text has three pieces, not
    four; each of them is a byte, so the conversion does not fail: it
    returns the three bytes 10, 0, 0, where the docstring of
    [ipv4_to_bytes] promises a 4-byte value.  The call of [insert_lpm]
    does not fail either, and the write request goes out with this
    three-byte match value. *)
Lemma three_component_address_is_written :
  ipv4_to_bytes "10.0.0" = Ok [x0a; x00; x00] /\
  insert_lpm (Sample.accepting Sample.program) 33574068 1 16805608 1 "10.0.0" 32 0 [] =
  (Next tt,
   [ Rpc_Write
       (lpm_write_request (Sample.accepting Sample.program)
          (lpm_entry 33574068 1 16805608 1 [x0a; x00; x00] 32 [x00; x00])) true;
     Print (Info_inserted "10.0.0" 32 0) ]).
Proof.
  split; reflexivity.
Qed.

(** What the conversion of an address accepts.  It fails only with a
    [ValueError], and then the call of [insert_lpm] raises it before any
    request exists.  It succeeds exactly when every piece between the
    dots is an integer literal with a value in [0, 255]; the result holds
    one byte for each piece, in order.  For the dotted-decimal text of
    four octets the result is exactly these four bytes.  Whenever the call
    goes on to write, the LPM match value of the request is the result of
    the conversion. *)
Theorem address_conversion (dst_ip : string) :
  (forall e,
      ipv4_to_bytes dst_ip = Err e ->
      e = ValueError /\
      forall env t m a pa prefix_len out_port tr,
        insert_lpm env t m a pa dst_ip prefix_len out_port tr = (Raised ValueError, tr)) /\
  (forall value,
      ipv4_to_bytes dst_ip = Ok value <->
      Forall2 (fun piece b => Py.int piece = Ok (Py.Z_of_byte b))
        (Py.split "."%char dst_ip) value) /\
  (forall a b c d,
      octet a -> octet b -> octet c -> octet d ->
      dst_ip = dotted_quad a b c d ->
      exists value,
        ipv4_to_bytes dst_ip = Ok value /\ map Py.Z_of_byte value = [a; b; c; d]) /\
  (forall value env t m a pa prefix_len out_port tr tr',
      ipv4_to_bytes dst_ip = Ok value ->
      insert_lpm env t m a pa dst_ip prefix_len out_port tr = (Next tt, tr') ->
      exists port,
        writes tr' =
        writes tr ++
        [lpm_write_request env (lpm_entry t m a pa value prefix_len port)]).
Proof.
  split; [|split; [|split]].
  - intros e E.
    assert (e = ValueError) as ->.
    { unfold ipv4_to_bytes in E. eapply bytes_map_error; [|exact E].
      intros x e'. apply int_error. }
    split; [reflexivity|]. intros. now apply insert_lpm_address_error.
  - intros value. apply bytes_map_ok.
  - intros a b c d Ha Hb Hc Hd ->. now apply ipv4_to_bytes_dotted_quad.
  - intros value env t m a pa prefix_len out_port tr tr' E.
    rewrite insert_lpm_cases. unfold encode_rule, rbind. rewrite E.
    destruct (set_int32 prefix_len) as [plen|] eqn:Ep; [|discriminate].
    destruct (Py.to_bytes_big out_port 2) as [port|]; [|discriminate].
    destruct (set_uint64 (device_id (args env))); [|discriminate].
    destruct (set_uint64 (election_id (args env))); [|discriminate].
    apply set_int32_inv in Ep. subst plen.
    intros H. inversion H. exists port.
    now rewrite writes_app, writes_write_events.
Qed.

Lemma address_conversion_witness :
  (ValueError = ValueError /\
   forall env t m a pa prefix_len out_port tr,
     insert_lpm env t m a pa "10.0.0.256" prefix_len out_port tr = (Raised ValueError, tr)) /\
  Forall2 (fun piece b => Py.int piece = Ok (Py.Z_of_byte b))
    (Py.split "."%char "10.0.0") [x0a; x00; x00] /\
  (exists value,
      ipv4_to_bytes "10.0.0.1" = Ok value /\ map Py.Z_of_byte value = [10; 0; 0; 1]) /\
  (exists port,
      writes [ Rpc_Write
                 (lpm_write_request (Sample.accepting Sample.program)
                    (lpm_entry 33574068 1 16805608 1 [x0a; x00; x00; x01] 32 [x00; x00]))
                 true;
               Print (Info_inserted "10.0.0.1" 32 0) ] =
      writes [] ++
      [lpm_write_request (Sample.accepting Sample.program)
         (lpm_entry 33574068 1 16805608 1 [x0a; x00; x00; x01] 32 port)]).
Proof.
  split; [|split; [|split]].
  - apply (proj1 (address_conversion "10.0.0.256") ValueError). reflexivity.
  - apply (proj1 (proj2 (address_conversion "10.0.0")) [x0a; x00; x00]). reflexivity.
  - apply (proj1 (proj2 (proj2 (address_conversion "10.0.0.1"))) 10 0 0 1);
      try (unfold octet; lia). reflexivity.
  - apply (proj2 (proj2 (proj2 (address_conversion "10.0.0.1")))
             [x0a; x00; x00; x01] (Sample.accepting Sample.program)
             33574068 1 16805608 1 32 0 []); reflexivity.
Defined.

(** ** Ports *)

(** C3, refuted as stated: for port 65536 the call raises an
    [OverflowError] and submits nothing; no request with the truncated
    port bytes 0.0 is built. *)
Lemma port_65536_is_not_truncated :
  Py.to_bytes_big 65536 2 = Err OverflowError /\
  insert_lpm (Sample.accepting Sample.program) 33574068 1 16805608 1 "10.0.0.1" 32 65536 [] =
  (Raised OverflowError, []).
Proof.
  split; reflexivity.
Qed.

(** C3, as amended.  For every output port from 65536 on, the encoding
    of the port in two bytes raises an [OverflowError]: nothing is
    truncated.  The call of [insert_lpm] ends with an exception, which is
    this one when the address and the prefix length were accepted, and
    the trace is as before the call: no write request is submitted. *)
Theorem large_port_raises (out_port : Z) :
  65536 <= out_port ->
  Py.to_bytes_big out_port 2 = Err OverflowError /\
  forall env t m a pa dst_ip prefix_len tr,
    (exists e, insert_lpm env t m a pa dst_ip prefix_len out_port tr = (Raised e, tr)) /\
    (forall value plen,
        ipv4_to_bytes dst_ip = Ok value -> set_int32 prefix_len = Ok plen ->
        insert_lpm env t m a pa dst_ip prefix_len out_port tr = (Raised OverflowError, tr)).
Proof.
  intros Hbig.
  assert (E : Py.to_bytes_big out_port 2 = Err OverflowError).
  { apply to_bytes_big_overflow. right. exact Hbig. }
  split; [exact E|]. intros env t m a pa dst_ip prefix_len tr.
  rewrite insert_lpm_cases. unfold encode_rule, rbind. rewrite E. split.
  - destruct (ipv4_to_bytes dst_ip); [|eauto].
    destruct (set_int32 prefix_len); eauto.
  - intros value plen -> ->. reflexivity.
Qed.

Lemma large_port_raises_witness :
  Py.to_bytes_big 70000 2 = Err OverflowError /\
  forall env t m a pa dst_ip prefix_len tr,
    (exists e, insert_lpm env t m a pa dst_ip prefix_len 70000 tr = (Raised e, tr)) /\
    (forall value plen,
        ipv4_to_bytes dst_ip = Ok value -> set_int32 prefix_len = Ok plen ->
        insert_lpm env t m a pa dst_ip prefix_len 70000 tr = (Raised OverflowError, tr)).
Proof.
  apply (@large_port_raises 70000). lia.
Defined.

(** C10.  For an output port below 0 or from 65536 on, the encoding of
    the port raises an [OverflowError] and the call of [insert_lpm] ends
    with an exception, the trace as before the call: no write request is
    built or submitted.  For a port in [0, 65535] the encoding succeeds
    and gives exactly two bytes, the port in big-endian order. *)
Theorem port_encoding_bounds (out_port : Z) :
  (out_port < 0 \/ 65536 <= out_port ->
   Py.to_bytes_big out_port 2 = Err OverflowError /\
   forall env t m a pa dst_ip prefix_len tr,
   exists e, insert_lpm env t m a pa dst_ip prefix_len out_port tr = (Raised e, tr)) /\
  (0 <= out_port < 65536 ->
   exists hi lo,
     Py.to_bytes_big out_port 2 = Ok [hi; lo] /\
     Py.Z_of_byte hi = out_port / 256 /\
     Py.Z_of_byte lo = out_port mod 256 /\
     Py.from_bytes_big [hi; lo] = out_port).
Proof.
  split.
  - intros Hout.
    assert (E : Py.to_bytes_big out_port 2 = Err OverflowError).
    { apply to_bytes_big_overflow. change (256 ^ Z.of_nat 2) with 65536. exact Hout. }
    split; [exact E|]. intros env t m a pa dst_ip prefix_len tr.
    rewrite insert_lpm_cases. unfold encode_rule, rbind. rewrite E.
    destruct (ipv4_to_bytes dst_ip); [|eauto].
    destruct (set_int32 prefix_len); eauto.
  - intros Hin.
    destruct (@to_bytes_big_fits out_port 2) as (bs & E & Hlen & Hval).
    { change (256 ^ Z.of_nat 2) with 65536. exact Hin. }
    destruct bs as [|hi [|lo [|x bs]]]; try discriminate Hlen.
    exists hi, lo. split; [exact E|].
    pose proof (Z_of_byte_range hi) as Rh. pose proof (Z_of_byte_range lo) as Rl.
    unfold Py.from_bytes_big in Hval. cbn [fold_left] in Hval.
    assert (Hdiv : out_port = 256 * Py.Z_of_byte hi + Py.Z_of_byte lo) by lia.
    repeat split.
    + apply (Z.div_unique_pos out_port 256 _ (Py.Z_of_byte lo)); lia.
    + apply (Z.mod_unique_pos out_port 256 (Py.Z_of_byte hi)); lia.
    + unfold Py.from_bytes_big. cbn [fold_left]. lia.
Qed.

Lemma port_encoding_bounds_witness :
  (Py.to_bytes_big (-1) 2 = Err OverflowError /\
   forall env t m a pa dst_ip prefix_len tr,
   exists e, insert_lpm env t m a pa dst_ip prefix_len (-1) tr = (Raised e, tr)) /\
  (exists hi lo,
     Py.to_bytes_big 258 2 = Ok [hi; lo] /\
     Py.Z_of_byte hi = 258 / 256 /\
     Py.Z_of_byte lo = 258 mod 256 /\
     Py.from_bytes_big [hi; lo] = 258).
Proof.
  split.
  - apply (proj1 (port_encoding_bounds (-1))). lia.
  - apply (proj2 (port_encoding_bounds 258)). lia.
Defined.

(** ** Runs of the built-ins on concrete text *)

Example int_accepts :
  map Py.int [ "10"; " 10 "; "+1"; "-0"; "010"; "1_0"; "0_0" ] =
  [ Ok 10; Ok 10; Ok 1; Ok 0; Ok 10; Ok 10; Ok 0 ].
Proof. reflexivity. Qed.

Example int_rejects :
  map Py.int [ ""; "+"; " "; "_1"; "1_"; "1__0"; "+-1"; "1 0"; "0x10"; "1."; "1e3"; "+ 1" ] =
  repeat (Err ValueError) 12.
Proof. reflexivity. Qed.

Example split_examples :
  Py.split "."%char "a.b..c" = [ "a"; "b"; ""; "c" ] /\
  Py.split "."%char "" = [ "" ] /\
  Py.split "."%char "." = [ ""; "" ].
Proof. repeat split; reflexivity. Qed.

Example ipv4_to_bytes_examples :
  ipv4_to_bytes "10.0.0.1" = Ok [x0a; x00; x00; x01] /\
  ipv4_to_bytes "1.2.3.4.5" = Ok [x01; x02; x03; x04; x05] /\
  ipv4_to_bytes "255" = Ok [xff] /\
  ipv4_to_bytes "+1. 2.3_0.0004" = Ok [x01; x02; x1e; x04] /\
  ipv4_to_bytes "256.0.0.1" = Err ValueError /\
  ipv4_to_bytes "-1.0.0.0" = Err ValueError /\
  ipv4_to_bytes "10.0.0.1." = Err ValueError /\
  ipv4_to_bytes "" = Err ValueError.
Proof. repeat split; reflexivity. Qed.

Example to_bytes_big_examples :
  map (fun n => Py.to_bytes_big n 2) [ 0; 1; 256; 65535; 65536; -1 ] =
  [ Ok [x00; x00]; Ok [x00; x01]; Ok [x01; x00]; Ok [xff; xff];
    Err OverflowError; Err OverflowError ].
Proof. reflexivity. Qed.

Example dotted_quad_example : dotted_quad 10 0 0 1 = "10.0.0.1".
Proof. reflexivity. Qed.

(** * Further properties *)

(** ** Every run, case by case *)

Lemma run_outline_eq env : run env = run_outline env.
Proof.
  unfold run_outline.
  destruct (stream_outcome env) as [[code|]| |] eqn:Hs;
    try (unfold_main; use_env; reflexivity).
  destruct (Z.eqb_spec code 0) as [->|Hc].
  2:{ unfold_main. use_env. apply Z.eqb_neq in Hc. cbn [app]. now rewrite Hc. }
  destruct (file_p4info env (p4info (args env))) as [p|e1] eqn:Hp;
    [|unfold_main; use_env; reflexivity].
  destruct (file_json env (json (args env))) as [dc|e2] eqn:Hj;
    [|unfold_main; use_env; reflexivity].
  destruct (set_uint64 (device_id (args env))) as [dev|e3] eqn:Hd;
    [|unfold_main; use_env; reflexivity].
  destruct (set_uint64 (election_id (args env))) as [lo|e4] eqn:He;
    [|unfold_main; use_env; reflexivity].
  pose proof (set_uint64_inv _ Hd) as [-> Rd].
  pose proof (set_uint64_inv _ He) as [-> Re].
  destruct (pipeline_reply env (pipeline_request env p dc)) eqn:Hr.
  - assert (Hprov : provisioned env p dc) by (constructor; assumption).
    destruct (all_ids (lookup_ids p)) eqn:Hall.
    + now rewrite (run_inserts Hprov Hall).
    + now rewrite (run_lookup_fails Hprov Hall).
  - unfold_main. use_env.
    unfold pipeline_request, election_identity in Hr. cbn [app negb Z.eqb].
    now rewrite Hr.
Qed.

Ltac outline env :=
  rewrite ?(run_outline_eq env) in *; unfold run_outline in *.

Ltac split_cases :=
  repeat match goal with
         | |- context [match ?x with _ => _ end] => destruct x eqn:?
         | H : context [match ?x with _ => _ end] |- _ => destruct x eqn:?
         end.

Lemma write_events_requests_shape env n req dst plen port :
  exists ok out,
    write_events env n req dst plen port = [Rpc_Write req ok; Print out] /\
    ok = write_reply env n req.
Proof.
  unfold write_events. destruct (write_reply env n req); eauto.
Qed.

Lemma requests_inserted env p dc :
  requests (inserted_trace env p dc) =
  [ Msg_pipeline (pipeline_request env p dc);
    Msg_write (lpm_write_request env (first_entry (lookup_ids p)));
    Msg_write (lpm_write_request env (second_entry (lookup_ids p))) ].
Proof.
  unfold inserted_trace. rewrite !requests_app, !requests_write_events. reflexivity.
Qed.

Lemma writes_inserted env p dc :
  writes (inserted_trace env p dc) =
  [ lpm_write_request env (first_entry (lookup_ids p));
    lpm_write_request env (second_entry (lookup_ids p)) ].
Proof.
  unfold inserted_trace. rewrite !writes_app, !writes_write_events. reflexivity.
Qed.

(** X1.  Nothing is sent on the unary RPCs unless the arbitration was
    answered with status code 0, both files were read and both
    identifiers of the command line are [uint64]; and then the first
    request is the pipeline installation, holding what the files hold. *)
Theorem requests_need_primary_and_files (env : Env) :
  requests (snd (run env)) <> [] ->
  stream_outcome env = Stream_response (Resp_arbitration 0) /\
  uint64 (device_id (args env)) /\ uint64 (election_id (args env)) /\
  exists p dc rest,
    file_p4info env (p4info (args env)) = Ok p /\
    file_json env (json (args env)) = Ok dc /\
    requests (snd (run env)) = Msg_pipeline (pipeline_request env p dc) :: rest.
Proof.
  outline env. intros Hreq.
  destruct (stream_outcome env) as [[code|]| |]; try (exfalso; now apply Hreq).
  destruct (Z.eqb_spec code 0) as [Hc|Hc]; [subst code|exfalso; now apply Hreq].
  destruct (file_p4info env (p4info (args env))) as [p|]; [|exfalso; now apply Hreq].
  destruct (file_json env (json (args env))) as [dc|]; [|exfalso; now apply Hreq].
  destruct (set_uint64 (device_id (args env))) eqn:Hd; [|exfalso; now apply Hreq].
  destruct (set_uint64 (election_id (args env))) eqn:He; [|exfalso; now apply Hreq].
  apply set_uint64_inv in Hd, He.
  split; [reflexivity|]. split; [tauto|]. split; [tauto|].
  exists p, dc.
  destruct (pipeline_reply env (pipeline_request env p dc));
    [destruct (all_ids (lookup_ids p))|]; cbn [snd].
  - rewrite requests_inserted. eauto.
  - eexists. repeat split; reflexivity.
  - eexists. repeat split; reflexivity.
Qed.

Lemma requests_need_primary_and_files_witness :
  stream_outcome (Sample.accepting Sample.program) = Stream_response (Resp_arbitration 0) /\
  uint64 (device_id (args (Sample.accepting Sample.program))) /\
  uint64 (election_id (args (Sample.accepting Sample.program))) /\
  exists p dc rest,
    file_p4info (Sample.accepting Sample.program)
      (p4info (args (Sample.accepting Sample.program))) = Ok p /\
    file_json (Sample.accepting Sample.program)
      (json (args (Sample.accepting Sample.program))) = Ok dc /\
    requests (snd (run (Sample.accepting Sample.program))) =
    Msg_pipeline (pipeline_request (Sample.accepting Sample.program) p dc) :: rest.
Proof.
  apply (@requests_need_primary_and_files (Sample.accepting Sample.program)).
  vm_compute. discriminate.
Defined.

(** X2.  Every [grpc.RpcError] is caught: no run of [main] ends with an
    [RpcError] on its way out, whatever the device answers.  And a failure
    to load either file is caught whatever the exception is: the primary
    controller prints the error of that file and [main] returns; the
    trace up to there holds no request. *)
Theorem rpc_and_load_errors_are_caught (env : Env) :
  fst (run env) <> Raised RpcError /\
  (forall e,
      stream_outcome env = Stream_response (Resp_arbitration 0) ->
      file_p4info env (p4info (args env)) = Err e ->
      run env = (Return, arbitration_trace env ++ [Print Error_load_p4info])) /\
  (forall p e,
      stream_outcome env = Stream_response (Resp_arbitration 0) ->
      file_p4info env (p4info (args env)) = Ok p ->
      file_json env (json (args env)) = Err e ->
      run env = (Return, arbitration_trace env ++ [Print Error_load_json])).
Proof.
  split; [|split].
  - outline env.
    destruct (stream_outcome env) as [[code|]| |]; try discriminate.
    destruct (code =? 0); [|discriminate].
    destruct (file_p4info env (p4info (args env))) as [p|]; [|discriminate].
    destruct (file_json env (json (args env))) as [dc|]; [|discriminate].
    destruct (set_uint64 (device_id (args env))) as [dev|e1] eqn:Hd.
    2:{ unfold set_uint64 in Hd.
        destruct ((0 <=? device_id (args env)) && (device_id (args env) <? 2 ^ 64));
          inversion Hd. discriminate. }
    destruct (set_uint64 (election_id (args env))) as [lo|e2] eqn:He.
    2:{ unfold set_uint64 in He.
        destruct ((0 <=? election_id (args env)) && (election_id (args env) <? 2 ^ 64));
          inversion He. discriminate. }
    destruct (pipeline_reply env (pipeline_request env p dc));
      [destruct (all_ids (lookup_ids p))|]; discriminate.
  - intros e Hs Hp. outline env. now rewrite Hs, Hp.
  - intros p e Hs Hp Hj. outline env. now rewrite Hs, Hp, Hj.
Qed.

Lemma rpc_and_load_errors_are_caught_witness :
  run {| args := Sample.arguments;
         file_p4info := fun _ => Err OSError;
         file_json := fun _ => Ok [];
         stream_outcome := Sample.primary;
         pipeline_reply := fun _ => true;
         write_reply := fun _ _ => true |} =
  (Return,
   [ Stream_opened; Stream_next Sample.primary; Print (Info_became_primary 10);
     Print Error_load_p4info ]) /\
  run {| args := Sample.arguments;
         file_p4info := fun _ => Ok Sample.program;
         file_json := fun _ => Err OSError;
         stream_outcome := Sample.primary;
         pipeline_reply := fun _ => true;
         write_reply := fun _ _ => true |} =
  (Return,
   [ Stream_opened; Stream_next Sample.primary; Print (Info_became_primary 10);
     Print Error_load_json ]).
Proof.
  split.
  - apply (proj1 (proj2 (rpc_and_load_errors_are_caught
                           {| args := Sample.arguments;
                              file_p4info := fun _ => Err OSError;
                              file_json := fun _ => Ok [];
                              stream_outcome := Sample.primary;
                              pipeline_reply := fun _ => true;
                              write_reply := fun _ _ => true |})) OSError);
      reflexivity.
  - apply (proj2 (proj2 (rpc_and_load_errors_are_caught
                           {| args := Sample.arguments;
                              file_p4info := fun _ => Ok Sample.program;
                              file_json := fun _ => Err OSError;
                              stream_outcome := Sample.primary;
                              pipeline_reply := fun _ => true;
                              write_reply := fun _ _ => true |}))
             Sample.program OSError);
      reflexivity.
Defined.

(** X3.  [main] comes to its idle loop, where it holds the mastership,
    exactly when the run is provisioned and the four identifiers pass the
    test.  The answers of the device to the two writes play no part: the
    run then ends with the message that all entries are inserted, also
    when the device has rejected both writes. *)
Theorem idle_loop_iff_provisioned_and_ids (env : Env) :
  (fst (run env) = Next tt <->
   exists p dc, provisioned env p dc /\ all_ids (lookup_ids p) = true) /\
  (fst (run env) = Next tt ->
   exists tr, snd (run env) = tr ++ [Print Info_all_inserted] /\
              List.length (writes tr) = 2%nat).
Proof.
  assert (Hforward : fst (run env) = Next tt ->
                     exists p dc, provisioned env p dc /\ all_ids (lookup_ids p) = true).
  { outline env.
    destruct (stream_outcome env) as [[code|]| |] eqn:Hs; try discriminate.
    destruct (Z.eqb_spec code 0) as [Hc|Hc]; [subst code|discriminate].
    destruct (file_p4info env (p4info (args env))) as [p|] eqn:Hp; [|discriminate].
    destruct (file_json env (json (args env))) as [dc|] eqn:Hj; [|discriminate].
    destruct (set_uint64 (device_id (args env))) eqn:Hd; [|discriminate].
    destruct (set_uint64 (election_id (args env))) eqn:He; [|discriminate].
    apply set_uint64_inv in Hd, He.
    destruct (pipeline_reply env (pipeline_request env p dc)) eqn:Hr; [|discriminate].
    destruct (all_ids (lookup_ids p)) eqn:Hall; [|discriminate].
    intros _. exists p, dc. split; [constructor; tauto|exact Hall]. }
  split; [split; [exact Hforward|]|].
  - intros (p & dc & Hprov & Hall). now rewrite (run_inserts Hprov Hall).
  - intros Hnext. destruct (Hforward Hnext) as (p & dc & Hprov & Hall).
    rewrite (run_inserts Hprov Hall). cbn [snd].
    exists (provision_trace env p dc ++
            write_events env 0 (lpm_write_request env (first_entry (lookup_ids p)))
              "10.0.0.1" 32 0 ++
            write_events env 1 (lpm_write_request env (second_entry (lookup_ids p)))
              "10.0.0.2" 32 1).
    split.
    + now rewrite <- !app_assoc.
    + now rewrite !writes_app, !writes_write_events.
Qed.

Lemma idle_loop_iff_provisioned_and_ids_witness :
  fst (run (Sample.env Sample.program Sample.primary true (fun _ => false))) = Next tt /\
  exists tr,
    snd (run (Sample.env Sample.program Sample.primary true (fun _ => false))) =
    tr ++ [Print Info_all_inserted] /\
    List.length (writes tr) = 2%nat.
Proof.
  assert (H : fst (run (Sample.env Sample.program Sample.primary true (fun _ => false))) =
              Next tt).
  { apply (proj2 (proj1 (idle_loop_iff_provisioned_and_ids
                           (Sample.env Sample.program Sample.primary true (fun _ => false))))).
    exists Sample.program, [].
    split; [constructor; try reflexivity; unfold uint64; simpl; lia|reflexivity]. }
  split; [exact H|].
  apply (proj2 (idle_loop_iff_provisioned_and_ids
                  (Sample.env Sample.program Sample.primary true (fun _ => false)))).
  exact H.
Defined.

(** X4.  In every run the stream is read exactly once, at most one
    pipeline installation is requested, and the number of write requests
    is 0 or 2. *)
Theorem rpc_counts (env : Env) :
  List.length (filter is_stream_next (snd (run env))) = 1%nat /\
  (List.length (pipeline_requests (snd (run env))) <= 1)%nat /\
  (writes (snd (run env)) = [] \/ List.length (writes (snd (run env))) = 2%nat).
Proof.
  outline env. unfold inserted_trace, lookup_failed_trace, write_events.
  split_cases; cbn; repeat split; auto.
Qed.

Lemma arbitration_request_device a req :
  arbitration_request a = Ok req -> arb_device_id (arbitration req) = device_id a.
Proof.
  unfold arbitration_request, rbind.
  destruct (set_uint64 (device_id a)) as [dev|] eqn:Ed; [|discriminate].
  destruct (set_uint64 (election_id a)) as [lo|]; [|discriminate].
  apply set_uint64_inv in Ed. destruct Ed as [-> _].
  intros E. inversion E. reflexivity.
Qed.

Lemma stream_requests_device a n :
  Forall (fun m => arb_device_id (arbitration m) = device_id a) (stream_requests a n).
Proof.
  destruct n as [|k]; simpl; [constructor|].
  destruct (arbitration_request a) as [req|] eqn:E; constructor.
  - now apply arbitration_request_device.
  - clear req E. induction k as [|k IH]; simpl; [constructor|].
    destruct (arbitration_request a) as [keep|] eqn:E; constructor.
    + now apply arbitration_request_device.
    + exact IH.
Qed.

(** X5.  Every message of a session names the same device, the device id
    of the command line: the claims of the stream, the pipeline request
    and the write requests. *)
Theorem device_id_constant (env : Env) (n : nat) :
  Forall (fun m => message_device_id m = device_id (args env)) (sent_messages env n).
Proof.
  unfold sent_messages. apply Forall_app. split.
  - apply Forall_map. apply stream_requests_device.
  - outline env.
    split_cases; cbn [snd]; rewrite ?requests_inserted; repeat constructor.
Qed.

(** X6.  A pipeline installation request, whenever one is sent, asks for
    VERIFY_AND_COMMIT and holds the program description and the device
    image exactly as the two files of the command line hold them; what is
    recorded as its outcome is the answer of the device to it. *)
Theorem pipeline_request_contents (env : Env)
    (req : SetForwardingPipelineConfigRequest) (ok : bool) :
  In (Rpc_SetForwardingPipelineConfig req ok) (snd (run env)) ->
  set_action req = VERIFY_AND_COMMIT /\
  file_p4info env (p4info (args env)) = Ok (config_p4info (config req)) /\
  file_json env (json (args env)) = Ok (p4_device_config (config req)) /\
  ok = pipeline_reply env req.
Proof.
  outline env. unfold inserted_trace, lookup_failed_trace, write_events.
  intros Hin.
  split_cases; cbn in Hin;
    repeat match type of Hin with
           | _ \/ _ => destruct Hin as [Hin|Hin]
           | False => destruct Hin
           | _ = _ => inversion Hin; subst; clear Hin
           end;
    repeat split; try reflexivity; try assumption; symmetry; assumption.
Qed.

Lemma pipeline_request_contents_witness :
  set_action (pipeline_request (Sample.accepting Sample.program) Sample.program []) =
  VERIFY_AND_COMMIT /\
  file_p4info (Sample.accepting Sample.program)
    (p4info (args (Sample.accepting Sample.program))) =
  Ok (config_p4info
        (config (pipeline_request (Sample.accepting Sample.program) Sample.program []))) /\
  file_json (Sample.accepting Sample.program)
    (json (args (Sample.accepting Sample.program))) =
  Ok (p4_device_config
        (config (pipeline_request (Sample.accepting Sample.program) Sample.program []))) /\
  true = pipeline_reply (Sample.accepting Sample.program)
           (pipeline_request (Sample.accepting Sample.program) Sample.program []).
Proof.
  apply (@pipeline_request_contents (Sample.accepting Sample.program)
           (pipeline_request (Sample.accepting Sample.program) Sample.program []) true).
  vm_compute. do 4 right. left. reflexivity.
Defined.

(** ** The generator of the stream *)

Lemma set_uint64_err v : ~ uint64 v -> set_uint64 v = Err ValueError.
Proof.
  unfold uint64, set_uint64. intros Hn.
  destruct (Z.leb_spec 0 v); destruct (Z.ltb_spec v (2 ^ 64)); simpl;
    try reflexivity. lia.
Qed.

(** X7.  With a device id and an election id that are [uint64], the
    generator never ends and every message it yields, the first and each
    one of the keep-alive loop, is the same arbitration claim.  With an id
    out of range the generator raises at its first message and nothing is
    ever put on the stream. *)
Theorem stream_requests_all_the_same_claim (a : Args) (n : nat) :
  (uint64 (device_id a) /\ uint64 (election_id a) ->
   stream_requests a n =
   repeat {| arbitration :=
               {| arb_device_id := device_id a;
                  arb_election_id := {| high := 0; low := election_id a |} |} |} n) /\
  (~ uint64 (device_id a) \/ ~ uint64 (election_id a) ->
   stream_requests a n = []).
Proof.
  split.
  - intros [Hd He]. now apply stream_requests_repeat.
  - intros Hbad.
    assert (E : exists e, arbitration_request a = Err e).
    { unfold arbitration_request, rbind. destruct Hbad as [Hd|He].
      - rewrite (set_uint64_err Hd). eauto.
      - rewrite (set_uint64_err He). destruct (set_uint64 (device_id a)); eauto. }
    destruct E as [e E]. destruct n; simpl; [reflexivity|]. now rewrite E.
Qed.

Lemma stream_requests_all_the_same_claim_witness :
  stream_requests Sample.arguments 3 =
  repeat {| arbitration :=
              {| arb_device_id := 0;
                 arb_election_id := {| high := 0; low := 10 |} |} |} 3 /\
  stream_requests {| p4info := ""; json := ""; addr := ""; device_id := 0;
                     election_id := -1 |} 3 = [].
Proof.
  split.
  - apply (proj1 (stream_requests_all_the_same_claim Sample.arguments 3)).
    unfold uint64. simpl. lia.
  - apply (proj2 (stream_requests_all_the_same_claim
                    {| p4info := ""; json := ""; addr := ""; device_id := 0;
                       election_id := -1 |} 3)).
    right. unfold uint64. simpl. lia.
Defined.

(** ** More on the lookup *)

Lemma find_none_forall {A} (f : A -> bool) l :
  (forall x, In x l -> f x = false) -> find f l = None.
Proof.
  intros H. destruct (find f l) as [x|] eqn:E; [|reflexivity].
  apply find_some in E. destruct E as [Hin Hf]. rewrite (H _ Hin) in Hf. discriminate.
Qed.

Lemma all_ids_field_none i : ids_match_field i = None -> all_ids i = false.
Proof.
  unfold all_ids. simpl. intros ->. simpl. now rewrite !andb_false_r.
Qed.

Lemma all_ids_table_none i : ids_table i = None -> all_ids i = false.
Proof. unfold all_ids. simpl. now intros ->. Qed.

Lemma all_ids_action_none i : ids_action i = None -> all_ids i = false.
Proof.
  unfold all_ids. simpl. intros ->. simpl. now rewrite !andb_false_r.
Qed.

(** X8.  When no table of the description has the table name, the lookup
    leaves both the table identifier and the match field identifier
    unset; when no action has the action name, it leaves the action
    identifier and the parameter identifier unset.  In both cases a
    provisioned run stops with the error about the identifiers. *)
Theorem missing_name_aborts (p : P4Info) :
  ((forall t, In t (tables p) -> preamble_name (t_preamble t) <> table_name) ->
   ids_table (lookup_ids p) = None /\ ids_match_field (lookup_ids p) = None /\
   forall env dc, provisioned env p dc ->
                  run env = (Return, lookup_failed_trace env p dc)) /\
  ((forall a, In a (actions p) -> preamble_name (a_preamble a) <> action_name) ->
   ids_action (lookup_ids p) = None /\ ids_param (lookup_ids p) = None /\
   forall env dc, provisioned env p dc ->
                  run env = (Return, lookup_failed_trace env p dc)).
Proof.
  split.
  - intros Hno.
    assert (E : find is_table (tables p) = None).
    { apply find_none_forall. intros t Hin. unfold is_table.
      apply String.eqb_neq. now apply Hno. }
    assert (Ht : ids_table (lookup_ids p) = None /\ ids_match_field (lookup_ids p) = None).
    { unfold lookup_ids. rewrite scan_tables_find, E.
      destruct (scan_actions (actions p)). split; reflexivity. }
    destruct Ht as [Ht Hm]. repeat split; try assumption.
    intros env dc Hprov. now apply run_lookup_fails, all_ids_table_none.
  - intros Hno.
    assert (E : find is_action (actions p) = None).
    { apply find_none_forall. intros a Hin. unfold is_action.
      apply String.eqb_neq. now apply Hno. }
    assert (Ha : ids_action (lookup_ids p) = None /\ ids_param (lookup_ids p) = None).
    { unfold lookup_ids. rewrite scan_actions_find, E.
      destruct (scan_tables (tables p)). split; reflexivity. }
    destruct Ha as [Ha Hpa]. repeat split; try assumption.
    intros env dc Hprov. now apply run_lookup_fails, all_ids_action_none.
Qed.

Lemma missing_name_aborts_witness :
  (ids_table (lookup_ids {| tables := []; actions := actions Sample.program |}) = None /\
   ids_match_field (lookup_ids {| tables := []; actions := actions Sample.program |}) = None /\
   forall env dc,
     provisioned env {| tables := []; actions := actions Sample.program |} dc ->
     run env =
     (Return,
      lookup_failed_trace env {| tables := []; actions := actions Sample.program |} dc)) /\
  (ids_action (lookup_ids {| tables := tables Sample.program; actions := [] |}) = None /\
   ids_param (lookup_ids {| tables := tables Sample.program; actions := [] |}) = None /\
   forall env dc,
     provisioned env {| tables := tables Sample.program; actions := [] |} dc ->
     run env =
     (Return,
      lookup_failed_trace env {| tables := tables Sample.program; actions := [] |} dc)).
Proof.
  split.
  - apply (proj1 (missing_name_aborts {| tables := []; actions := actions Sample.program |})).
    simpl. intros t [].
  - apply (proj2 (missing_name_aborts {| tables := tables Sample.program; actions := [] |})).
    simpl. intros a [].
Defined.

Lemma lookup_ids_match_field p t :
  named_table p t ->
  ids_match_field (lookup_ids p) = scan_match_fields (match_fields t) None.
Proof.
  unfold named_table, lookup_ids. intros Ht.
  rewrite scan_tables_find, Ht. destruct (scan_actions (actions p)). reflexivity.
Qed.

(** X9.  The match field is looked for in the first table of the table
    name only.  If that table declares no field of the match field name,
    the identifier stays unset, whatever other tables of the description
    declare, and a provisioned run stops with the error about the
    identifiers. *)
Theorem match_field_of_first_table_only (p : P4Info) (t : Table) :
  named_table p t ->
  (forall mf, In mf (match_fields t) -> mf_name mf <> match_field) ->
  ids_match_field (lookup_ids p) = None /\
  forall env dc, provisioned env p dc ->
                 run env = (Return, lookup_failed_trace env p dc).
Proof.
  intros Ht Hno.
  assert (E : ids_match_field (lookup_ids p) = None).
  { rewrite (lookup_ids_match_field Ht), scan_match_fields_last.
    rewrite find_none_forall; [reflexivity|].
    intros mf Hin. apply in_rev in Hin. unfold is_match_field.
    apply String.eqb_neq. now apply Hno. }
  split; [exact E|]. intros env dc Hprov.
  now apply run_lookup_fails, all_ids_field_none.
Qed.

Lemma match_field_of_first_table_only_witness :
  ids_match_field
    (lookup_ids {| tables := [ Sample.ipv4_table 5 [];
                               Sample.ipv4_table 6 [ {| mf_id := 1; mf_name := match_field |} ] ];
                   actions := actions Sample.program |}) = None /\
  forall env dc,
    provisioned env
      {| tables := [ Sample.ipv4_table 5 [];
                     Sample.ipv4_table 6 [ {| mf_id := 1; mf_name := match_field |} ] ];
         actions := actions Sample.program |} dc ->
    run env =
    (Return,
     lookup_failed_trace env
       {| tables := [ Sample.ipv4_table 5 [];
                      Sample.ipv4_table 6 [ {| mf_id := 1; mf_name := match_field |} ] ];
          actions := actions Sample.program |} dc).
Proof.
  apply (@match_field_of_first_table_only
           {| tables := [ Sample.ipv4_table 5 [];
                          Sample.ipv4_table 6 [ {| mf_id := 1; mf_name := match_field |} ] ];
              actions := actions Sample.program |}
           (Sample.ipv4_table 5 [])).
  - reflexivity.
  - simpl. intros mf [].
Defined.

(** X10.  A parameter called "port" is taken wherever it stands in the
    parameter list of the action: the parameter identifier is that of the
    first parameter of this name, not that of the first parameter. *)
Theorem port_parameter_preferred (p : P4Info) (a : Action)
    (before after : list Param) (pa : Param) :
  named_action p a ->
  params a = before ++ pa :: after ->
  p_name pa = "port" ->
  (forall q, In q before -> p_name q <> "port") ->
  ids_param (lookup_ids p) = Some (p_id pa).
Proof.
  intros Ha Hps Hname Hbefore.
  rewrite (lookup_ids_param Ha). unfold action_param_id.
  rewrite scan_params_find, Hps, find_append.
  rewrite find_none_forall.
  - cbn [find]. unfold is_port at 1. rewrite Hname. reflexivity.
  - intros q Hin. unfold is_port. apply String.eqb_neq. now apply Hbefore.
Qed.

Lemma port_parameter_preferred_witness :
  ids_param
    (lookup_ids {| tables := tables Sample.program;
                   actions := [ Sample.to_port 9 [ {| p_id := 4; p_name := "queue" |};
                                                   {| p_id := 5; p_name := "port" |} ] ] |}) =
  Some 5.
Proof.
  apply (@port_parameter_preferred
           {| tables := tables Sample.program;
              actions := [ Sample.to_port 9 [ {| p_id := 4; p_name := "queue" |};
                                              {| p_id := 5; p_name := "port" |} ] ] |}
           (Sample.to_port 9 [ {| p_id := 4; p_name := "queue" |};
                               {| p_id := 5; p_name := "port" |} ])
           [ {| p_id := 4; p_name := "queue" |} ] []
           {| p_id := 5; p_name := "port" |}).
  - reflexivity.
  - reflexivity.
  - reflexivity.
  - simpl. intros q [<-|[]]. simpl. discriminate.
Defined.

(** X11.  Of the fields of the match field name that the first table of
    the table name declares, the last one gives the identifier; when the
    table declares one field of this name only, it is this one. *)
Theorem last_match_field_wins (p : P4Info) (t : Table)
    (before after : list MatchField) (mf : MatchField) :
  named_table p t ->
  match_fields t = before ++ mf :: after ->
  mf_name mf = match_field ->
  (forall q, In q after -> mf_name q <> match_field) ->
  ids_match_field (lookup_ids p) = Some (mf_id mf).
Proof.
  intros Ht Hmfs Hname Hafter.
  rewrite (lookup_ids_match_field Ht), scan_match_fields_last, Hmfs.
  rewrite rev_app_distr. cbn [rev]. rewrite <- app_assoc, find_append.
  rewrite find_none_forall.
  - cbn [app find]. unfold is_match_field at 1. rewrite Hname.
    now rewrite String.eqb_refl.
  - intros q Hin. apply in_rev in Hin. unfold is_match_field.
    apply String.eqb_neq. now apply Hafter.
Qed.

Lemma last_match_field_wins_witness :
  ids_match_field (lookup_ids Sample.program) = Some 1.
Proof.
  apply (@last_match_field_wins Sample.program
           (Sample.ipv4_table 33574068 [ {| mf_id := 1; mf_name := match_field |} ])
           [] [] {| mf_id := 1; mf_name := match_field |}).
  - reflexivity.
  - reflexivity.
  - reflexivity.
  - simpl. intros q [].
Defined.

Lemma truthy_value v : truthy v = true -> v = Some (id_value v) /\ id_value v <> 0.
Proof.
  destruct v as [n|]; simpl; [|discriminate].
  intros H. apply negb_true_iff, Z.eqb_neq in H. now split.
Qed.

(** X12.  Every rule that a run writes names the table by the identifier
    of the first table of the table name and the action by the identifier
    of the first action of the action name, and none of the four
    identifiers in it is 0. *)
Theorem written_rules_carry_the_looked_up_ids (env : Env) (p : P4Info)
    (dc : list byte) (t : Table) (a : Action) (req : WriteRequest) (u : Update) :
  provisioned env p dc ->
  named_table p t -> named_action p a ->
  In req (writes (snd (run env))) -> In u (updates req) ->
  table_id (upd_table_entry u) = preamble_id (t_preamble t) /\
  action_id (te_action (upd_table_entry u)) = preamble_id (a_preamble a) /\
  table_id (upd_table_entry u) <> 0 /\
  action_id (te_action (upd_table_entry u)) <> 0 /\
  Forall (fun fm => field_id fm <> 0) (te_match (upd_table_entry u)) /\
  Forall (fun ap => param_id ap <> 0) (action_params (te_action (upd_table_entry u))).
Proof.
  intros Hprov Ht Ha Hreq Hu.
  destruct (all_ids (lookup_ids p)) eqn:Hall.
  - rewrite (run_inserts Hprov Hall) in Hreq. cbn [snd] in Hreq.
    rewrite !writes_app, !writes_write_events in Hreq.
    unfold all_ids in Hall. cbn [forallb] in Hall.
    repeat (apply andb_true_iff in Hall; destruct Hall as [? Hall]).
    repeat match goal with
           | H : truthy _ = true |- _ => apply truthy_value in H; destruct H
           end.
    assert (Eti : id_value (ids_table (lookup_ids p)) = preamble_id (t_preamble t)).
    { rewrite (lookup_ids_named Ht Ha). reflexivity. }
    assert (Eai : id_value (ids_action (lookup_ids p)) = preamble_id (a_preamble a)).
    { rewrite (lookup_ids_named Ht Ha). reflexivity. }
    cbn [provision_trace writes flat_map app] in Hreq.
    destruct Hreq as [<-|[<-|[]]]; destruct Hu as [<-|[]];
      cbn; rewrite <- ?Eti, <- ?Eai; repeat split; try assumption;
      repeat constructor; assumption.
  - rewrite (run_lookup_fails Hprov Hall) in Hreq. destruct Hreq.
Qed.

Lemma written_rules_carry_the_looked_up_ids_witness :
  table_id (first_entry (lookup_ids Sample.program)) = 33574068 /\
  action_id (te_action (first_entry (lookup_ids Sample.program))) = 16805608 /\
  table_id (first_entry (lookup_ids Sample.program)) <> 0 /\
  action_id (te_action (first_entry (lookup_ids Sample.program))) <> 0 /\
  Forall (fun fm => field_id fm <> 0) (te_match (first_entry (lookup_ids Sample.program))) /\
  Forall (fun ap => param_id ap <> 0)
    (action_params (te_action (first_entry (lookup_ids Sample.program)))).
Proof.
  apply (@written_rules_carry_the_looked_up_ids
           (Sample.accepting Sample.program) Sample.program []
           (Sample.ipv4_table 33574068 [ {| mf_id := 1; mf_name := match_field |} ])
           (Sample.to_port 16805608 [ {| p_id := 1; p_name := "port" |} ])
           (lpm_write_request (Sample.accepting Sample.program)
              (first_entry (lookup_ids Sample.program)))
           {| upd_type := INSERT;
              upd_table_entry := first_entry (lookup_ids Sample.program) |}).
  - apply accepting_provisioned.
  - reflexivity.
  - reflexivity.
  - vm_compute. left. reflexivity.
  - left. reflexivity.
Defined.

(** ** More on addresses *)

Lemma split_length s : List.length (Py.split "."%char s) = S (count_dots s).
Proof.
  induction s as [|c s IH]; [reflexivity|].
  cbn [Py.split count_dots]. destruct (Ascii.eqb c "."%char).
  - cbn [List.length]. now rewrite IH.
  - destruct (Py.split "."%char s) as [|piece pieces]; [discriminate IH|exact IH].
Qed.

(** X13.  A converted address has one byte for each piece of the text:
    one more than the text has dots.  So the conversion gives four bytes
    exactly for the accepted texts with three dots. *)
Theorem ipv4_to_bytes_length (ip : string) (value : list byte) :
  ipv4_to_bytes ip = Ok value ->
  List.length value = S (count_dots ip).
Proof.
  unfold ipv4_to_bytes. intros E. apply bytes_map_ok in E.
  apply Forall2_length in E. now rewrite <- E, split_length.
Qed.

Lemma ipv4_to_bytes_length_witness :
  List.length [x0a; x00; x00; x01] = S (count_dots "10.0.0.1").
Proof.
  apply (@ipv4_to_bytes_length "10.0.0.1" [x0a; x00; x00; x01]). reflexivity.
Defined.

Lemma split_append s1 s2 :
  Py.split "."%char (s1 ++ "." ++ s2) = Py.split "."%char s1 ++ Py.split "."%char s2.
Proof.
  induction s1 as [|c s1 IH]; [reflexivity|].
  change (String c s1 ++ "." ++ s2)%string with (String c (s1 ++ "." ++ s2)).
  cbn [Py.split]. rewrite IH. destruct (Ascii.eqb c "."%char); [reflexivity|].
  destruct (Py.split "."%char s1) as [|piece pieces] eqn:E.
  - pose proof (split_length s1) as L. rewrite E in L. discriminate L.
  - reflexivity.
Qed.

Lemma bytes_map_error_in {A} (f : A -> Result Z) xs x :
  (forall y e, f y = Err e -> e = ValueError) ->
  In x xs -> f x = Err ValueError ->
  Py.bytes_map f xs = Err ValueError.
Proof.
  intros Hf Hin Hx. induction xs as [|y ys IH]; [destruct Hin|].
  cbn [Py.bytes_map]. unfold rbind.
  destruct (f y) as [n|e] eqn:Ey.
  - destruct (Py.byte_of_Z n); [|reflexivity].
    destruct Hin as [->|Hin]; [congruence|]. now rewrite (IH Hin).
  - now rewrite (Hf _ _ Ey).
Qed.

Lemma ipv4_to_bytes_empty_piece ip :
  In EmptyString (Py.split "."%char ip) -> ipv4_to_bytes ip = Err ValueError.
Proof.
  intros Hin. unfold ipv4_to_bytes.
  apply (@bytes_map_error_in _ Py.int _ EmptyString); try assumption.
  - intros y e. apply int_error.
  - reflexivity.
Qed.

(** X14.  A text with an empty piece is never converted: the empty text,
    a text that begins or ends with a dot, and a text with two dots in a
    row all raise a [ValueError], whatever else they hold. *)
Theorem ipv4_to_bytes_rejects_empty_pieces (s1 s2 : string) :
  ipv4_to_bytes "" = Err ValueError /\
  ipv4_to_bytes ("." ++ s1) = Err ValueError /\
  ipv4_to_bytes (s1 ++ ".") = Err ValueError /\
  ipv4_to_bytes (s1 ++ "." ++ "." ++ s2) = Err ValueError.
Proof.
  split; [reflexivity|]. split; [|split].
  - apply ipv4_to_bytes_empty_piece.
    change ("." ++ s1)%string with ("" ++ "." ++ s1)%string.
    rewrite split_append. left. reflexivity.
  - apply ipv4_to_bytes_empty_piece.
    change (s1 ++ ".")%string with (s1 ++ "." ++ "")%string.
    rewrite split_append. apply in_or_app. right. left. reflexivity.
  - apply ipv4_to_bytes_empty_piece.
    rewrite split_append. apply in_or_app. right.
    change ("." ++ s2)%string with ("" ++ "." ++ s2)%string.
    rewrite split_append. left. reflexivity.
Qed.

(** ** More on [insert_lpm] *)

Lemma set_int32_ok v : int32 v -> set_int32 v = Ok v.
Proof.
  unfold int32, set_int32. intros [H0 H1].
  destruct (Z.leb_spec (- 2 ^ 31) v); [|lia].
  destruct (Z.ltb_spec v (2 ^ 31)); [reflexivity|lia].
Qed.

Lemma set_int32_range v r : set_int32 v = Ok r -> int32 v.
Proof.
  unfold int32, set_int32.
  destruct (Z.leb_spec (- 2 ^ 31) v); destruct (Z.ltb_spec v (2 ^ 31)); simpl;
    intros E; inversion E; lia.
Qed.

Lemma to_bytes_big_2_range n bs : Py.to_bytes_big n 2 = Ok bs -> 0 <= n < 65536.
Proof.
  unfold Py.to_bytes_big.
  destruct (Z.ltb_spec n 0); [discriminate|].
  destruct (Z.leb_spec (256 ^ Z.of_nat 2) n); [discriminate|].
  intros _. change (256 ^ Z.of_nat 2) with 65536 in *. lia.
Qed.

(** X15.  A call of [insert_lpm] submits its write request exactly when
    the address converts, the prefix length is an [int32], the port is in
    [0, 65535] and the two identifiers of the command line are [uint64].
    Nothing else is checked: neither that the address has four bytes nor
    that the prefix length is at most 32. *)
Theorem insert_lpm_writes_iff (env : Env) (t m a pa : Z) (dst_ip : string)
    (prefix_len out_port : Z) (tr : Trace) :
  fst (insert_lpm env t m a pa dst_ip prefix_len out_port tr) = Next tt <->
  (exists value, ipv4_to_bytes dst_ip = Ok value) /\
  int32 prefix_len /\
  0 <= out_port < 65536 /\
  uint64 (device_id (args env)) /\ uint64 (election_id (args env)).
Proof.
  rewrite insert_lpm_cases. unfold encode_rule, rbind. split.
  - destruct (ipv4_to_bytes dst_ip) as [value|]; [|discriminate].
    destruct (set_int32 prefix_len) as [plen|] eqn:Ep; [|discriminate].
    destruct (Py.to_bytes_big out_port 2) as [port|] eqn:Eport; [|discriminate].
    destruct (set_uint64 (device_id (args env))) eqn:Ed; [|discriminate].
    destruct (set_uint64 (election_id (args env))) eqn:Ee; [|discriminate].
    intros _. apply set_uint64_inv in Ed, Ee.
    split; [now exists value|].
    split; [apply (set_int32_range _ Ep)|].
    split; [apply (to_bytes_big_2_range _ Eport)|]. tauto.
  - intros ([value Ev] & Hp & Hport & Hd & He).
    rewrite Ev, (set_int32_ok Hp), (set_uint64_ok Hd), (set_uint64_ok He).
    destruct (@to_bytes_big_fits out_port 2) as (bs & E & _).
    { change (256 ^ Z.of_nat 2) with 65536. exact Hport. }
    rewrite E. reflexivity.
Qed.

Lemma insert_lpm_writes_iff_witness :
  fst (insert_lpm (Sample.accepting Sample.program) 33574068 1 16805608 1
         "10.0.0" 33 7 []) = Next tt.
Proof.
  apply (proj2 (insert_lpm_writes_iff (Sample.accepting Sample.program)
                  33574068 1 16805608 1 "10.0.0" 33 7 [])).
  split; [exists [x0a; x00; x00]; reflexivity|].
  unfold int32, uint64. simpl. lia.
Defined.

(** X16.  When a call of [insert_lpm] gets to its end, it has added to
    the trace one write and one message, nothing else.  The request reads
    back as the arguments: the match value is the converted address, the
    prefix length is the one given, and the two port bytes are the
    big-endian form of the port.  The message says "inserted" exactly when
    the device accepted the write, and reports the failure otherwise. *)
Theorem written_rule_reads_back (env : Env) (t m a pa : Z) (dst_ip : string)
    (prefix_len out_port : Z) (tr tr' : Trace) :
  insert_lpm env t m a pa dst_ip prefix_len out_port tr = (Next tt, tr') ->
  exists value port ok,
    ipv4_to_bytes dst_ip = Ok value /\
    List.length port = 2%nat /\
    Py.from_bytes_big port = out_port /\
    ok = write_reply env (List.length (filter is_write tr))
           (lpm_write_request env (lpm_entry t m a pa value prefix_len port)) /\
    tr' = tr ++
          [ Rpc_Write (lpm_write_request env (lpm_entry t m a pa value prefix_len port)) ok;
            Print (if ok then Info_inserted dst_ip prefix_len out_port
                   else Error_write_failed) ].
Proof.
  rewrite insert_lpm_cases. unfold encode_rule, rbind.
  destruct (ipv4_to_bytes dst_ip) as [value|]; [|discriminate].
  destruct (set_int32 prefix_len) as [plen|] eqn:Ep; [|discriminate].
  destruct (Py.to_bytes_big out_port 2) as [port|] eqn:Eport; [|discriminate].
  destruct (set_uint64 (device_id (args env))); [|discriminate].
  destruct (set_uint64 (election_id (args env))); [|discriminate].
  apply set_int32_inv in Ep. subst plen.
  intros H. inversion H. clear H.
  destruct (@to_bytes_big_fits out_port 2) as (bs & E & Hlen & Hval).
  { change (256 ^ Z.of_nat 2) with 65536. apply (to_bytes_big_2_range _ Eport). }
  rewrite Eport in E. inversion E. subst bs.
  exists value, port,
    (write_reply env (List.length (filter is_write tr))
       (lpm_write_request env (lpm_entry t m a pa value prefix_len port))).
  repeat split; try assumption.
  unfold write_events.
  destruct (write_reply env (List.length (filter is_write tr))
              (lpm_write_request env (lpm_entry t m a pa value prefix_len port)));
    reflexivity.
Qed.

Lemma written_rule_reads_back_witness :
  exists value port ok,
    ipv4_to_bytes "10.0.0.2" = Ok value /\
    List.length port = 2%nat /\
    Py.from_bytes_big port = 258 /\
    ok = write_reply (Sample.accepting Sample.program) (List.length (filter is_write []))
           (lpm_write_request (Sample.accepting Sample.program)
              (lpm_entry 33574068 1 16805608 1 value 24 port)) /\
    snd (insert_lpm (Sample.accepting Sample.program) 33574068 1 16805608 1
           "10.0.0.2" 24 258 []) =
    [] ++
    [ Rpc_Write (lpm_write_request (Sample.accepting Sample.program)
                   (lpm_entry 33574068 1 16805608 1 value 24 port)) ok;
      Print (if ok then Info_inserted "10.0.0.2" 24 258 else Error_write_failed) ].
Proof.
  apply (@written_rule_reads_back (Sample.accepting Sample.program)
           33574068 1 16805608 1 "10.0.0.2" 24 258 []).
  reflexivity.
Defined.
